(** * borgwrap: a shallow embedding of [borgwraplib/app.py]

    The configuration document is what [yaml.safe_load] returns: a tree of
    Python values.  The wrapper only ever reads it through [d[k]], [k in d],
    [for x in d], [isinstance] and [str()]; those operations are modelled
    below with the error Python raises when the value has the wrong shape.

    Modelling choices:
    - mapping keys are strings or integers ([Key]); the code subscripts
      mappings with string keys, and [archives[0]] with the integer 0;
    - a float is the dyadic number [m * 2^e] (every finite double is one);
    - strings are Rocq strings, and [str.lower] lowers ASCII letters;
    - the configuration is a tree (a YAML alias that puts one object at two
      places is not represented); the only mutation the code makes to it,
      [repo += ...] on a list repository, is passed on explicitly
      ([run_effect]) to what runs after the create call;
    - [timedelta.total_seconds()] is a correctly rounded double, compared
      exactly with the int [max_age];
    - the subprocess runner, the hook shell, the clock, [strptime] and the
      text [str()] gives for floats, lists and mappings are parameters of the
      development (Section [Borgwrap]): every theorem holds for all of them. *)

From Stdlib Require Import String Ascii ZArith List Bool Lia Permutation.
Import ListNotations.
Open Scope string_scope.
Open Scope list_scope.

(** ** Python values *)

#[local] Set Warnings "-register-all".

Inductive Key := KStr (s : string) | KInt (z : Z).

Inductive Value :=
| VNone
| VBool (b : bool)
| VInt (z : Z)
| VFloat (m e : Z)
| VStr (s : string)
| VList (l : list Value)
| VDict (d : list (Key * Value)).

Definition key_eqb (k1 k2 : Key) : bool :=
  match k1, k2 with
  | KStr a, KStr b => String.eqb a b
  | KInt a, KInt b => Z.eqb a b
  | _, _ => false
  end.

Definition key_value (k : Key) : Value :=
  match k with KStr s => VStr s | KInt z => VInt z end.

(** Lookup in a Python dict: its keys are distinct, the first match is it. *)
Fixpoint dict_get (d : list (Key * Value)) (k : Key) : option Value :=
  match d with
  | [] => None
  | (k', v) :: t => if key_eqb k k' then Some v else dict_get t k
  end.

(** [d[k] = v]: replaces the value in place, or appends a new key. *)
Fixpoint dict_set (d : list (Key * Value)) (k : Key) (v : Value) :
    list (Key * Value) :=
  match d with
  | [] => [(k, v)]
  | (k', v') :: t =>
      if key_eqb k k' then (k', v) :: t else (k', v') :: dict_set t k v
  end.

(** ** Exceptions and the pure error monad *)

Inductive exn :=
| KeyError (k : Key)
| IndexError
| TypeError
| ValueError
| YAMLError
| CalledProcessError (returncode : Z)
| SystemExit (code : Z).

Inductive Res (A : Type) :=
| Ok (a : A)
| Err (e : exn).
Arguments Ok {A} a.
Arguments Err {A} e.

Definition rbind {A B} (r : Res A) (f : A -> Res B) : Res B :=
  match r with Ok a => f a | Err e => Err e end.

Notation "x <-? r ;; k" := (rbind r (fun x => k))
  (at level 61, r at next level, right associativity).

(** [v[k]] for a string key. *)
Definition getitem (v : Value) (k : string) : Res Value :=
  match v with
  | VDict d =>
      match dict_get d (KStr k) with
      | Some x => Ok x
      | None => Err (KeyError (KStr k))
      end
  | _ => Err TypeError
  end.

(** [v[i]] for a non-negative integer index. *)
Definition getindex (v : Value) (i : nat) : Res Value :=
  match v with
  | VList l =>
      match nth_error l i with Some x => Ok x | None => Err IndexError end
  | VStr s =>
      match String.get i s with
      | Some c => Ok (VStr (String c EmptyString))
      | None => Err IndexError
      end
  | VDict d =>
      match dict_get d (KInt (Z.of_nat i)) with
      | Some x => Ok x
      | None => Err (KeyError (KInt (Z.of_nat i)))
      end
  | _ => Err TypeError
  end.

Definition is_substring (k s : string) : bool :=
  match String.index 0 k s with Some _ => true | None => false end.

Definition value_is_str (k : string) (v : Value) : bool :=
  match v with VStr s => String.eqb s k | _ => false end.

(** [k in v] for a string [k]. *)
Definition contains (v : Value) (k : string) : Res bool :=
  match v with
  | VDict d => Ok (existsb (key_eqb (KStr k)) (map fst d))
  | VList l => Ok (existsb (value_is_str k) l)
  | VStr s => Ok (is_substring k s)
  | _ => Err TypeError
  end.

Definition char_value (c : ascii) : Value := VStr (String c EmptyString).

(** [for x in v]. *)
Definition py_iter (v : Value) : Res (list Value) :=
  match v with
  | VList l => Ok l
  | VDict d => Ok (map (fun p => key_value (fst p)) d)
  | VStr s => Ok (map char_value (list_ascii_of_string s))
  | _ => Err TypeError
  end.

(** [config[a][b]] and [b in config[a]]. *)
Definition get2 (config : Value) (a b : string) : Res Value :=
  x <-? getitem config a ;; getitem x b.

Definition in2 (config : Value) (a b : string) : Res bool :=
  x <-? getitem config a ;; contains x b.

(** ** [config_is_true] *)

Definition ascii_lower (c : ascii) : ascii :=
  let n := nat_of_ascii c in
  if (65 <=? n)%nat && (n <=? 90)%nat then ascii_of_nat (n + 32)%nat else c.

Fixpoint str_lower (s : string) : string :=
  match s with
  | EmptyString => EmptyString
  | String c t => String (ascii_lower c) (str_lower t)
  end.

(** The real number [m * 2^e] equals the integer [n]. *)
Definition dyadic_eqZ (m e n : Z) : bool :=
  if (0 <=? e)%Z then Z.eqb (m * 2 ^ e) n else Z.eqb m (n * 2 ^ (- e)).

Definition dyadic_ltZ (m e n : Z) : bool :=
  if (0 <=? e)%Z then Z.ltb (m * 2 ^ e) n else Z.ltb m (n * 2 ^ (- e)).

(** [value == 1]. *)
Definition py_eq_one (v : Value) : bool :=
  match v with
  | VBool b => b
  | VInt z => Z.eqb z 1
  | VFloat m e => dyadic_eqZ m e 1
  | _ => false
  end.

(** [config_is_true] (app.py, lines 76-84). *)
Definition config_is_true (value : Value) : bool :=
  match value with
  | VBool b => b
  | VStr s =>
      let l := str_lower s in
      if String.eqb l "yes" || String.eqb l "true" then true else py_eq_one value
  | _ => py_eq_one value
  end.

(** ** [str()] of an integer *)

Fixpoint dec_aux (fuel : nat) (n : N) (acc : string) : string :=
  match fuel with
  | O => acc
  | S f =>
      let acc' := String (ascii_of_N (48 + N.modulo n 10)) acc in
      let q := N.div n 10 in
      if N.eqb q 0 then acc' else dec_aux f q acc'
  end.

Definition dec_of_N (n : N) : string := dec_aux (S (N.size_nat n)) n EmptyString.

Definition py_str_int (z : Z) : string :=
  match z with
  | Zneg p => String.append "-" (dec_of_N (Npos p))
  | _ => dec_of_N (Z.to_N z)
  end.

(** The double-quote character, written by its code. *)
Definition dq : string := String (ascii_of_nat 34) EmptyString.

Definition nl : string := String (ascii_of_nat 10) EmptyString.

(** The archive name template, resolved by borgbackup itself. *)
Definition archive_template : string := "{utcnow:%Y-%m-%dT%H:%M:%SZ}".

(** ** [timedelta.total_seconds()] and a float compared with an int *)

(** [num / den] rounded to the nearest integer, ties to even ([den > 0]). *)
Definition round_half_even (num den : Z) : Z :=
  let m := (num / den)%Z in
  let r := (num mod den)%Z in
  if (2 * r <? den)%Z then m
  else if (den <? 2 * r)%Z then (m + 1)%Z
  else if Z.even m then m else (m + 1)%Z.

(** A positive [a / (q * 2^e)] as a numerator and a denominator. *)
Definition scale (a q e : Z) : Z * Z :=
  if (e <? 0)%Z then (a * 2 ^ (- e), q)%Z else (a, q * 2 ^ e)%Z.

(** Python's int true division [p / q] ([q > 0]), correctly rounded to a
    double (53-bit significand, ties to even), as [(m, e)] for the value
    [m * 2^e].  The quotients used here lie between 10^-6 and 2^1024 in
    absolute value, so no underflow or overflow case arises. *)
Definition int_true_div (p q : Z) : Z * Z :=
  let a := Z.abs p in
  if (a =? 0)%Z then (0, 0)%Z else
  let e0 := (Z.log2 a - Z.log2 q - 53)%Z in
  let e := if (fst (scale a q e0) / snd (scale a q e0) <? 2 ^ 53)%Z then e0 else (e0 + 1)%Z in
  ((Z.sgn p * round_half_even (fst (scale a q e)) (snd (scale a q e)))%Z, e).

(** Python's [x > n] for the float [x = m * 2^e] and an int [n]: exact. *)
Definition float_gt_int (x : Z * Z) (n : Z) : bool :=
  let (m, e) := x in
  if (e <? 0)%Z then (n * 2 ^ (- e) <? m)%Z else (n <? m * 2 ^ e)%Z.

(** [timedelta.total_seconds()] of a difference of [us] microseconds:
    [us / 10**6], a true division of ints. *)
Definition total_seconds (us : Z) : Z * Z := int_true_div us 1000000.

(** ** Effects: a trace of what the wrapper did, and an exception *)

Inductive Event :=
| EvRun (cmds : list Value) (borg_rsh : option Value)
| EvHook (hook : Value)
| EvPrint (text : string).

Definition M (A : Type) : Type := (list Event * Res A)%type.

Definition ret {A} (a : A) : M A := ([], Ok a).

Definition bind {A B} (m : M A) (f : A -> M B) : M B :=
  match m with
  | (t, Ok a) => match f a with (t', r) => (t ++ t', r) end
  | (t, Err e) => (t, Err e)
  end.

Notation "x <- m ;; k" := (bind m (fun x => k))
  (at level 61, m at next level, right associativity).

Definition lift {A} (r : Res A) : M A := ([], r).

Definition raise {A} (e : exn) : M A := ([], Err e).

Definition print (s : string) : M unit := ([EvPrint s], Ok tt).

(** Exit status of the process when [main] ends with [r]: an uncaught
    exception makes the interpreter exit with status 1. *)
Definition exit_status (r : Res unit) : Z :=
  match r with
  | Ok _ => 0
  | Err (SystemExit c) => c
  | Err _ => 1
  end.

(** ** Concrete inputs

    The configuration of the repository's test suite (borgwrap_test.py),
    with a retention section and hooks added, and a runner on which every
    process succeeds. *)

Definition test_remote : list (Key * Value) :=
  [(KStr "repository", VStr "/path/testrepo"); (KStr "prefix", VStr "testprefix")].

Definition test_location : list (Key * Value) :=
  [(KStr "source", VList [VStr "source1"; VStr "source2"])].

Definition test_retention : list (Key * Value) :=
  [(KStr "keep_daily", VInt 7); (KStr "keep_last", VInt 3)].

Definition test_config : Value :=
  VDict [(KStr "location", VDict test_location); (KStr "remote", VDict test_remote);
         (KStr "retention", VDict test_retention)].

Definition test_hooks : Value :=
  VDict [(KStr "before", VList [VStr "true"]); (KStr "after", VList [VStr "sync"])].

Definition hooked_config : Value :=
  VDict [(KStr "hooks", test_hooks); (KStr "location", VDict test_location);
         (KStr "remote", VDict test_remote); (KStr "retention", VDict test_retention)].

(** [hooked_config] without remote.repository. *)
Definition norepo_config : Value :=
  VDict [(KStr "hooks", test_hooks); (KStr "location", VDict test_location);
         (KStr "remote", VDict [(KStr "prefix", VStr "testprefix")]);
         (KStr "retention", VDict test_retention)].

(** A policy that sets every optional create flag, its location keys in an
    order other than the command's. *)
Definition full_remote : list (Key * Value) :=
  [(KStr "compression", VStr "lz4"); (KStr "repository", VStr "/path/testrepo");
   (KStr "rsh", VStr "ssh -i key"); (KStr "prefix", VStr "testprefix")].

Definition full_location : list (Key * Value) :=
  [(KStr "exclude", VList [VStr "*.tmp"; VStr "*.bak"]); (KStr "source", VStr "/home");
   (KStr "one_file_system", VBool true); (KStr "exclude_caches", VStr "Yes");
   (KStr "exclude_if_present", VList [VStr ".nobackup"])].

Definition full_config : Value :=
  VDict [(KStr "remote", VDict full_remote); (KStr "location", VDict full_location)].

(** A policy whose repository is a list. *)
Definition listrepo_config : Value :=
  VDict [(KStr "location", VDict test_location);
         (KStr "remote", VDict [(KStr "repository", VList [VStr "/r"]);
                                (KStr "prefix", VStr "p")]);
         (KStr "retention", VDict [(KStr "keep_last", VInt 3)])].

Definition all_ok {A} (_ : A) : Z := 0%Z.

(** The shell command [false] fails, every other one succeeds. *)
Definition false_fails (h : Value) : Z := if value_is_str "false" h then 1%Z else 0%Z.

Definition no_stdout (_ : list Value) : option Value := None.

Definition str_other (_ : Value) : string := "".

(** A report on an archive started at time 0, with or without stats. *)
Definition test_archive (size : Value) : Value :=
  VDict [(KStr "start", VStr "2026-10-15T02:00:00.000000");
         (KStr "stats", VDict [(KStr "original_size", size)])].

Definition test_report (size : Value) : Value :=
  VDict [(KStr "archives", VList [test_archive size])].

Definition nostats_report : Value :=
  VDict [(KStr "archives", VList [VDict [(KStr "start", VStr "2026-10-15T02:00:00.000000")]])].

Definition start_at_zero (_ : string) : option Z := Some 0%Z.

(** Ten hours, in microseconds. *)
Definition ten_hours_us : Z := (10 * 3600 * 1000000)%Z.

(** A remote section with an rsh override. *)
Definition rsh_remote : list (Key * Value) :=
  [(KStr "repository", VStr "/path/testrepo"); (KStr "prefix", VStr "testprefix");
   (KStr "rsh", VStr "ssh -p 2222")].

Definition rsh_config : Value := VDict [(KStr "remote", VDict rsh_remote)].

(** A tool that prints the report on a 5000-byte archive. *)
Definition report_stdout (_ : list Value) : option Value := Some (test_report (VInt 5000)).

(** A tool that always exits with status 2. *)
Definition tool_fails (_ : list Value) : Z := 2%Z.

(** The create command the test policies compile to. *)
Definition test_create_cmds : list Value :=
  [VStr "borgbackup"; VStr "create";
   VStr (String.append "/path/testrepo::testprefix-" archive_template);
   VStr "source1"; VStr "source2"].

Section Borgwrap.

(** Exit status of [borgbackup] run with these arguments. *)
Variable tool_status : list Value -> Z.
(** [yaml.safe_load] of its standard output; [None] if it does not parse. *)
Variable tool_stdout : list Value -> option Value.
(** Exit status of a hook run through the shell. *)
Variable hook_status : Value -> Z.
(** [datetime.now()], and [datetime.strptime(s, "%Y-%m-%dT%H:%M:%S.%f")],
    as microseconds on the same local naive time line. *)
Variable now_us : Z.
Variable strptime_us : string -> option Z.
(** [str()] of a float, a list or a mapping. *)
Variable py_str_other : Value -> string.

Definition py_str (v : Value) : string :=
  match v with
  | VNone => "None"
  | VBool true => "True"
  | VBool false => "False"
  | VInt z => py_str_int z
  | VStr s => s
  | _ => py_str_other v
  end.

(** [SubprocessRunner.run] with [check=True]. *)
Definition invoke (cmds : list Value) (rsh : option Value) : M (option Value) :=
  ([EvRun cmds rsh],
   if Z.eqb (tool_status cmds) 0 then Ok (tool_stdout cmds)
   else Err (CalledProcessError (tool_status cmds))).

(** [SubprocessRunner.run_hook] with [shell=True, check=True]. *)
Definition run_hook (hook : Value) : M unit :=
  ([EvHook hook],
   if Z.eqb (hook_status hook) 0 then Ok tt
   else Err (CalledProcessError (hook_status hook))).

(** [repo += s]: string concatenation, or a list extended by characters.
    This is the new value of [repo]; a list is extended in place, so the
    configuration holds it too ([run_effect] below). *)
Definition iadd_str (repo : Value) (s : string) : Res Value :=
  match repo with
  | VStr r => Ok (VStr (String.append r s))
  | VList l => Ok (VList (l ++ map char_value (list_ascii_of_string s)))
  | _ => Err TypeError
  end.

(** [list + v]. *)
Definition list_concat (v : Value) : Res (list Value) :=
  match v with VList l => Ok l | _ => Err TypeError end.

(** The pure part of [run] (app.py, lines 88-101): the argument vector and
    the [BORG_RSH] override handed to the runner. *)
Definition run_cmds (action : string) (config : Value) (archive : bool)
    (args : list Value) (trailing_args : Value) : Res (list Value * option Value) :=
  repo0 <-? get2 config "remote" "repository" ;;
  repo <-? (if archive then
              prefix <-? get2 config "remote" "prefix" ;;
              iadd_str repo0
                (String.append "::" (String.append (py_str prefix)
                   (String.append "-" archive_template)))
            else Ok repo0) ;;
  has_rsh <-? in2 config "remote" "rsh" ;;
  rsh <-? (if has_rsh then (r <-? get2 config "remote" "rsh" ;; Ok (Some r))
           else Ok None) ;;
  trailing <-? list_concat trailing_args ;;
  Ok ([VStr "borgbackup"; VStr action] ++ args ++ [repo] ++ trailing, rsh).

(** [run] (app.py, lines 87-102). *)
Definition run (action : string) (config : Value) (archive : bool)
    (args : list Value) (trailing_args : Value) : M (option Value) :=
  c <- lift (run_cmds action config archive args trailing_args) ;;
  invoke (fst c) (snd c).

(** The configuration as [run] leaves it.  [repo] is the object stored at
    config["remote"]["repository"], so [repo += ...] (app.py, line 90)
    extends that very list in place when it is a list; on a string it only
    rebinds the local name. *)
Definition run_effect (config : Value) (archive : bool) : Value :=
  if archive then
    match config with
    | VDict d =>
        match dict_get d (KStr "remote") with
        | Some (VDict rm) =>
            match dict_get rm (KStr "repository"), dict_get rm (KStr "prefix") with
            | Some (VList l), Some prefix =>
                VDict (dict_set d (KStr "remote")
                  (VDict (dict_set rm (KStr "repository")
                     (VList (l ++ map char_value (list_ascii_of_string
                        (String.append "::" (String.append (py_str prefix)
                           (String.append "-" archive_template)))))))))
            | _, _ => config
            end
        | _ => config
        end
    | _ => config
    end
  else config.

(** Flags of [action_create] (app.py, lines 106-130): the option arguments
    and the source value. *)
Definition create_args (config : Value) (dry_run : bool) : Res (list Value * Value) :=
  source0 <-? get2 config "location" "source" ;;
  let source := match source0 with VStr _ => VList [source0] | _ => source0 end in
  c_comp <-? (b <-? in2 config "remote" "compression" ;;
              if b then (v <-? get2 config "remote" "compression" ;;
                         Ok [VStr "--compression"; v])
              else Ok []) ;;
  c_ofs <-? (b <-? in2 config "location" "one_file_system" ;;
             if b then (v <-? get2 config "location" "one_file_system" ;;
                        Ok (if config_is_true v then [VStr "--one-file-system"] else []))
             else Ok []) ;;
  c_cache <-? (b <-? in2 config "location" "exclude_caches" ;;
               if b then (v <-? get2 config "location" "exclude_caches" ;;
                          Ok (if config_is_true v then [VStr "--exclude-caches"] else []))
               else Ok []) ;;
  c_eip <-? (b <-? in2 config "location" "exclude_if_present" ;;
             if b then (v <-? get2 config "location" "exclude_if_present" ;;
                        es <-? py_iter v ;;
                        Ok (flat_map (fun e => [VStr "--exclude-if-present"; e]) es))
             else Ok []) ;;
  c_exc <-? (b <-? in2 config "location" "exclude" ;;
             if b then (v <-? get2 config "location" "exclude" ;;
                        es <-? py_iter v ;;
                        Ok (flat_map (fun e => [VStr "--exclude"; e]) es))
             else Ok []) ;;
  let c_dry := if dry_run then [VStr "--dry-run"] else [] in
  Ok (c_comp ++ c_ofs ++ c_cache ++ c_eip ++ c_exc ++ c_dry, source).

(** [action_create] (app.py, lines 105-132).  Its result is the
    configuration object after the call, which the caller goes on using. *)
Definition action_create (config : Value) (dry_run : bool) : M Value :=
  a <- lift (create_args config dry_run) ;;
  _ <- run "create" config true (fst a) (snd a) ;;
  ret (run_effect config true).

(** The command [action_create] hands to the runner. *)
Definition compile_create (config : Value) (dry_run : bool) : Res (list Value * option Value) :=
  a <-? create_args config dry_run ;;
  run_cmds "create" config true (fst a) (snd a).

(** One [if "keep_x" in config["retention"]] block of [action_prune]. *)
Definition keep_flag (config : Value) (key flag : string) : Res (list Value) :=
  b <-? in2 config "retention" key ;;
  if b then (v <-? get2 config "retention" key ;; Ok [VStr flag; VStr (py_str v)])
  else Ok [].

(** Flags of [action_prune] (app.py, lines 179-204). *)
Definition prune_args (config : Value) (dry_run : bool) : Res (list Value) :=
  prefix <-? get2 config "remote" "prefix" ;;
  let c0 := [VStr "--stats"; VStr "--list"; VStr "--prefix"; prefix] in
  let c_dry := if dry_run then [VStr "--dry-run"] else [] in
  k_last <-? keep_flag config "keep_last" "--keep-last" ;;
  k_within <-? keep_flag config "keep_within" "--keep-within" ;;
  k_hourly <-? keep_flag config "keep_hourly" "--keep-hourly" ;;
  k_daily <-? keep_flag config "keep_daily" "--keep-daily" ;;
  k_weekly <-? keep_flag config "keep_weekly" "--keep-weekly" ;;
  k_monthly <-? keep_flag config "keep_monthly" "--keep-monthly" ;;
  k_yearly <-? keep_flag config "keep_yearly" "--keep-yearly" ;;
  Ok (c0 ++ c_dry ++ k_last ++ k_within ++ k_hourly ++ k_daily ++ k_weekly
         ++ k_monthly ++ k_yearly).

(** [action_prune] (app.py, lines 178-206). *)
Definition action_prune (config : Value) (dry_run : bool) : M unit :=
  a <- lift (prune_args config dry_run) ;;
  _ <- run "prune" config false a (VList []) ;;
  ret tt.

(** The command [action_prune] hands to the runner. *)
Definition compile_prune (config : Value) (dry_run : bool) : Res (list Value * option Value) :=
  a <-? prune_args config dry_run ;;
  run_cmds "prune" config false a (VList []).

(** [action_list] (app.py, lines 135-136). *)
Definition action_list (config : Value) : M unit :=
  _ <- run "list" config false [] (VList []) ;;
  ret tt.

(** ** Hooks (app.py, lines 156-175) *)

Definition skip_message (hook : Value) : string :=
  String.append "Not running hook "
    (String.append dq (String.append (py_str hook)
       (String.append dq " as dry run is enabled."))).

Fixpoint run_hooks (dry_run : bool) (hooks : list Value) : M unit :=
  match hooks with
  | [] => ret tt
  | hook :: rest =>
      _ <- (if dry_run then print (skip_message hook) else run_hook hook) ;;
      run_hooks dry_run rest
  end.

(** [hooks_before] and [hooks_after], which differ only in the key. *)
Definition hooks_of (which : string) (config : Value) (dry_run : bool) : M unit :=
  has_hooks <- lift (contains config "hooks") ;;
  if negb has_hooks then ret tt else
  has_which <- lift (in2 config "hooks" which) ;;
  if negb has_which then ret tt else
  hooks <- lift (v <-? get2 config "hooks" which ;; py_iter v) ;;
  run_hooks dry_run hooks.

Definition hooks_before := hooks_of "before".
Definition hooks_after := hooks_of "after".

(** [CreateAction.execute] (app.py, lines 33-38): the after-hooks and
    prune read the configuration object as [action_create] left it. *)
Definition create_execute (config : Value) (dry_run no_prune : bool) : M unit :=
  _ <- hooks_before config dry_run ;;
  config <- action_create config dry_run ;;
  _ <- hooks_after config dry_run ;;
  if negb no_prune then action_prune config dry_run else ret tt.

(** ** The age check (app.py, lines 139-153) *)

(** [datetime.strptime(v, fmt)]: a [TypeError] for a non-string. *)
Definition strptime (v : Value) : Res Z :=
  match v with
  | VStr s => match strptime_us s with Some t => Ok t | None => Err ValueError end
  | _ => Err TypeError
  end.

(** [size < min_size] with [min_size] an int. *)
Definition py_lt_int (v : Value) (n : Z) : Res bool :=
  match v with
  | VInt z => Ok (Z.ltb z n)
  | VBool b => Ok (Z.ltb (if b then 1 else 0) n)
  | VFloat m e => Ok (dyadic_ltZ m e n)
  | _ => Err TypeError
  end.

(** Truth value of [min_size], which is [None] or an int. *)
Definition opt_truthy (o : option Z) : bool :=
  match o with Some n => negb (Z.eqb n 0) | None => false end.

Definition first_archive (last_backup : Value) : Res Value :=
  a <-? getitem last_backup "archives" ;; getindex a 0.

Definition too_old_message (start : Value) : string :=
  String.append "BORGBACKUP WARNING: last backup too old"
    (String.append nl (String.append nl (py_str start))).

Definition too_small_message (size : Value) (min_size : Z) : string :=
  String.append "BORGBACKUP WARNING: last backup too small"
    (String.append nl (String.append nl
      (String.append (py_str size)
        (String.append "B < " (String.append (py_str_int min_size) "B"))))).

Definition ok_message : string := "BORGBACKUP OK".

(** What [action_check_age] does with the parsed report [last_backup]:
    [(now - start).total_seconds() > max_age] compares the elapsed time,
    rounded to a double, with the int [max_age]. *)
Definition evaluate (last_backup : Value) (max_age : Z) (min_size : option Z) : M unit :=
  start <- lift (a <-? first_archive last_backup ;; getitem a "start") ;;
  backup_start <- lift (strptime start) ;;
  if float_gt_int (total_seconds (now_us - backup_start)) max_age then
    (st <- lift (a <-? first_archive last_backup ;; getitem a "start") ;;
     _ <- print (too_old_message st) ;;
     raise (SystemExit 1))
  else
  size <- lift (a <-? first_archive last_backup ;;
                s <-? getitem a "stats" ;; getitem s "original_size") ;;
  small <- (match min_size with
            | Some m => if opt_truthy min_size then lift (py_lt_int size m) else ret false
            | None => ret false
            end) ;;
  if small then
    (_ <- print (too_small_message size (match min_size with Some m => m | None => 0 end)) ;;
     raise (SystemExit 1))
  else print ok_message.

Definition yaml_load (out : option Value) : Res Value :=
  match out with Some v => Ok v | None => Err YAMLError end.

(** [action_check_age] (app.py, lines 139-153). *)
Definition action_check_age (config : Value) (max_age : Z) (min_size : option Z) : M unit :=
  out <- run "info" config false [VStr "--last"; VStr "1"; VStr "--json"] (VList []) ;;
  last_backup <- lift (yaml_load out) ;;
  evaluate last_backup max_age min_size.

(** [CheckAgeAction.execute] (app.py, lines 69-74): hours and MiB. *)
Definition check_age_execute (config : Value) (max_age_h : Z) (min_size_mib : option Z) : M unit :=
  let min_size := match min_size_mib with
                  | Some m => if Z.eqb m 0 then None else Some (m * 1024 * 1024)%Z
                  | None => None
                  end in
  action_check_age config (max_age_h * 3600)%Z min_size.

(** ** The spec's description of the compiled commands *)

Definition opt_pair (flag : string) (o : option Value) : list Value :=
  match o with Some v => [VStr flag; v] | None => [] end.

Definition opt_switch (flag : string) (o : option Value) : list Value :=
  match o with
  | Some v => if config_is_true v then [VStr flag] else []
  | None => []
  end.

Definition entry_pairs (flag : string) (o : option Value) : list Value :=
  match o with
  | Some (VList es) => flat_map (fun e => [VStr flag; e]) es
  | _ => []
  end.

Definition source_list (v : Value) : list Value :=
  match v with VStr s => [VStr s] | VList l => l | _ => [] end.

(** The create command as section 4.1 of the spec lists it, for a policy
    whose remote and location sections are the mappings [remote], [loc]. *)
Definition create_cmd_spec (remote loc : list (Key * Value)) (repository : string)
    (prefix : Value) (sources : list Value) (dry_run : bool) : list Value :=
  [VStr "borgbackup"; VStr "create"]
  ++ opt_pair "--compression" (dict_get remote (KStr "compression"))
  ++ opt_switch "--one-file-system" (dict_get loc (KStr "one_file_system"))
  ++ opt_switch "--exclude-caches" (dict_get loc (KStr "exclude_caches"))
  ++ entry_pairs "--exclude-if-present" (dict_get loc (KStr "exclude_if_present"))
  ++ entry_pairs "--exclude" (dict_get loc (KStr "exclude"))
  ++ (if dry_run then [VStr "--dry-run"] else [])
  ++ [VStr (String.append repository
        (String.append "::" (String.append (py_str prefix)
          (String.append "-" archive_template))))]
  ++ sources.

Definition retention_order : list (string * string) :=
  [("keep_last", "--keep-last"); ("keep_within", "--keep-within");
   ("keep_hourly", "--keep-hourly"); ("keep_daily", "--keep-daily");
   ("keep_weekly", "--keep-weekly"); ("keep_monthly", "--keep-monthly");
   ("keep_yearly", "--keep-yearly")].

(** The prune command as section 4.1 of the spec lists it. *)
Definition prune_cmd_spec (prefix repository : Value) (retention : list (Key * Value))
    (dry_run : bool) : list Value :=
  [VStr "borgbackup"; VStr "prune"; VStr "--stats"; VStr "--list"; VStr "--prefix"; prefix]
  ++ (if dry_run then [VStr "--dry-run"] else [])
  ++ flat_map (fun kf => match dict_get retention (KStr (fst kf)) with
                         | Some v => [VStr (snd kf); VStr (py_str v)]
                         | None => []
                         end) retention_order
  ++ [repository].

(** The value of [config[location][source]] replaced by [v]. *)
Definition with_location_source (config v : Value) : Value :=
  match config with
  | VDict d =>
      match dict_get d (KStr "location") with
      | Some (VDict loc) =>
          VDict (dict_set d (KStr "location") (VDict (dict_set loc (KStr "source") v)))
      | _ => config
      end
  | _ => config
  end.

(** The hooks [hooks_of] runs, or the error it raises before any. *)
Definition hook_list (which : string) (config : Value) : Res (list Value) :=
  has_hooks <-? contains config "hooks" ;;
  if negb has_hooks then Ok [] else
  has_which <-? in2 config "hooks" which ;;
  if negb has_which then Ok [] else
  v <-? get2 config "hooks" which ;; py_iter v.

Definition hook_event (dry_run : bool) (hook : Value) : Event :=
  if dry_run then EvPrint (skip_message hook) else EvHook hook.

Definition is_run (ev : Event) : bool :=
  match ev with EvRun _ _ => true | _ => false end.

(** The truthy values as claimed: boolean [true], a string that lowers to
    "yes" or "true", the integer 1. *)
Definition claimed_truthy (v : Value) : Prop :=
  v = VBool true
  \/ (exists s, v = VStr s /\ (str_lower s = "yes" \/ str_lower s = "true"))
  \/ v = VInt 1.

(** ** Generic lemmas *)

Lemma key_eqb_eq k1 k2 : key_eqb k1 k2 = true <-> k1 = k2.
Proof.
  destruct k1 as [a|a], k2 as [b|b]; simpl; split; intro H; try discriminate.
  - apply String.eqb_eq in H; congruence.
  - injection H as ->; apply String.eqb_refl.
  - apply Z.eqb_eq in H; congruence.
  - injection H as ->; apply Z.eqb_refl.
Qed.

Lemma key_eqb_refl k : key_eqb k k = true.
Proof. apply key_eqb_eq; reflexivity. Qed.

Lemma existsb_keys d k :
  existsb (key_eqb k) (map fst d) =
  match dict_get d k with Some _ => true | None => false end.
Proof.
  induction d as [|[k' v] t IH]; simpl; [reflexivity|].
  destruct (key_eqb k k'); simpl; auto.
Qed.

Lemma dict_get_some_in d k v : dict_get d k = Some v -> In (k, v) d.
Proof.
  induction d as [|[k' v'] t IH]; simpl; [discriminate|].
  case_eq (key_eqb k k'); intros Hk H.
  - apply key_eqb_eq in Hk; subst; injection H as ->; left; reflexivity.
  - right; auto.
Qed.

Lemma dict_get_none d k : dict_get d k = None -> forall v, ~ In (k, v) d.
Proof.
  induction d as [|[k' v'] t IH]; simpl; intros H v Hin; [exact Hin|].
  case_eq (key_eqb k k'); intros Hk; rewrite Hk in H; [discriminate|].
  destruct Hin as [Heq|Hin].
  - injection Heq as -> _; rewrite key_eqb_refl in Hk; discriminate.
  - exact (IH H v Hin).
Qed.

Lemma in_dict_get d k v :
  NoDup (map fst d) -> In (k, v) d -> dict_get d k = Some v.
Proof.
  induction d as [|[k' v'] t IH]; simpl; intros Hnd Hin; [contradiction|].
  inversion Hnd as [|? ? Hnotin Hnd']; subst.
  destruct Hin as [Heq|Hin].
  - injection Heq as -> ->; rewrite key_eqb_refl; reflexivity.
  - case_eq (key_eqb k k'); intros Hk.
    + apply key_eqb_eq in Hk; subst.
      exfalso; apply Hnotin; apply (in_map fst) in Hin; exact Hin.
    + auto.
Qed.

(** A Python dict's lookups do not depend on the order of its keys. *)
Lemma dict_get_perm d d' :
  NoDup (map fst d) -> Permutation d d' -> forall k, dict_get d' k = dict_get d k.
Proof.
  intros Hnd Hp k.
  assert (Hnd' : NoDup (map fst d')).
  { apply (Permutation_NoDup (Permutation_map fst Hp)); exact Hnd. }
  case_eq (dict_get d k).
  - intros v Hv. apply in_dict_get; [exact Hnd'|].
    apply (Permutation_in _ Hp); apply dict_get_some_in; exact Hv.
  - intros Hn. case_eq (dict_get d' k); [|reflexivity].
    intros v Hv. exfalso.
    apply (dict_get_none d k Hn v).
    apply (Permutation_in _ (Permutation_sym Hp)); apply dict_get_some_in; exact Hv.
Qed.

Lemma dict_get_set_same d k v : dict_get (dict_set d k v) k = Some v.
Proof.
  induction d as [|[k' v'] t IH]; simpl; [rewrite key_eqb_refl; reflexivity|].
  case_eq (key_eqb k k'); intros Hk; simpl.
  - rewrite Hk; reflexivity.
  - rewrite Hk; exact IH.
Qed.

Lemma dict_get_set_other d k v k2 :
  key_eqb k2 k = false -> dict_get (dict_set d k v) k2 = dict_get d k2.
Proof.
  intros Hne; induction d as [|[k' v'] t IH]; simpl.
  - rewrite Hne; reflexivity.
  - case_eq (key_eqb k k'); intros Hk; simpl.
    + apply key_eqb_eq in Hk; subst; rewrite Hne; reflexivity.
    + rewrite IH; reflexivity.
Qed.

Lemma getitem_set_other d k v a :
  KStr a <> k -> getitem (VDict (dict_set d k v)) a = getitem (VDict d) a.
Proof.
  intros Hne; unfold getitem; rewrite dict_get_set_other; [reflexivity|].
  destruct (key_eqb (KStr a) k) eqn:E; [apply key_eqb_eq in E; contradiction|reflexivity].
Qed.

Lemma contains_set d k v old a :
  dict_get d k = Some old -> contains (VDict (dict_set d k v)) a = contains (VDict d) a.
Proof.
  intros Hk; unfold contains; rewrite !existsb_keys.
  destruct (key_eqb (KStr a) k) eqn:E.
  - apply key_eqb_eq in E; subst; rewrite dict_get_set_same, Hk; reflexivity.
  - rewrite dict_get_set_other by exact E; reflexivity.
Qed.

(** [run_effect] only touches config["remote"]["repository"]. *)
Lemma run_effect_cases config b :
  run_effect config b = config \/
  exists d rm l v, config = VDict d /\ dict_get d (KStr "remote") = Some (VDict rm) /\
    dict_get rm (KStr "repository") = Some (VList l) /\
    run_effect config b =
      VDict (dict_set d (KStr "remote") (VDict (dict_set rm (KStr "repository") v))).
Proof.
  unfold run_effect; destruct b; [|left; reflexivity].
  destruct config as [| | | | | |d]; try (left; reflexivity).
  destruct (dict_get d (KStr "remote")) as [[| | | | | |rm]|] eqn:Er; try (left; reflexivity).
  destruct (dict_get rm (KStr "repository")) as [[| | | | |l|]|] eqn:Erp;
    destruct (dict_get rm (KStr "prefix")) eqn:Ep; try (left; reflexivity).
  right; do 4 eexists; repeat split; eassumption.
Qed.

Lemma run_effect_getitem config b a :
  a <> "remote" -> getitem (run_effect config b) a = getitem config a.
Proof.
  intros Ha; destruct (run_effect_cases config b) as [->|(d & rm & l & v & -> & Er & _ & ->)];
    [reflexivity|].
  apply getitem_set_other; congruence.
Qed.

Lemma run_effect_contains config b a :
  contains (run_effect config b) a = contains config a.
Proof.
  destruct (run_effect_cases config b) as [->|(d & rm & l & v & -> & Er & _ & ->)];
    [reflexivity|].
  apply (contains_set _ _ _ _ _ Er).
Qed.

Lemma run_effect_get2 config b a k :
  k <> "repository" -> get2 (run_effect config b) a k = get2 config a k.
Proof.
  intros Hk; destruct (String.eqb a "remote") eqn:Ea.
  - apply String.eqb_eq in Ea; subst.
    destruct (run_effect_cases config b) as [->|(d & rm & l & v & -> & Er & _ & ->)];
      [reflexivity|].
    unfold get2; cbn [getitem]; rewrite dict_get_set_same, Er; cbn [rbind].
    apply getitem_set_other; congruence.
  - apply String.eqb_neq in Ea; unfold get2; rewrite run_effect_getitem by exact Ea.
    reflexivity.
Qed.

Lemma run_effect_in2 config b a k :
  in2 (run_effect config b) a k = in2 config a k.
Proof.
  destruct (String.eqb a "remote") eqn:Ea.
  - apply String.eqb_eq in Ea; subst.
    destruct (run_effect_cases config b) as [->|(d & rm & l & v & -> & Er & Erp & ->)];
      [reflexivity|].
    unfold in2; cbn [getitem]; rewrite dict_get_set_same, Er; cbn [rbind].
    apply (contains_set _ _ _ _ _ Erp).
  - apply String.eqb_neq in Ea; unfold in2; rewrite run_effect_getitem by exact Ea.
    reflexivity.
Qed.

(** After the create call, config["remote"]["repository"] is what
    [repo += ...] made of a list repository. *)
Lemma run_effect_repository config l prefix :
  get2 config "remote" "repository" = Ok (VList l) ->
  get2 config "remote" "prefix" = Ok prefix ->
  get2 (run_effect config true) "remote" "repository" =
  iadd_str (VList l) (String.append "::" (String.append (py_str prefix)
                        (String.append "-" archive_template))).
Proof.
  unfold get2, run_effect.
  destruct config as [| | | | | |d]; cbn [getitem rbind]; try discriminate.
  destruct (dict_get d (KStr "remote")) as [[| | | | | |rm]|] eqn:Er;
    cbn [getitem rbind]; try discriminate.
  destruct (dict_get rm (KStr "repository")) eqn:Erp; [|discriminate].
  intros Hl; injection Hl as ->.
  destruct (dict_get rm (KStr "prefix")) eqn:Ep; [|discriminate].
  intros Hp; injection Hp as ->.
  cbn [getitem]; rewrite dict_get_set_same; cbn [rbind getitem].
  rewrite dict_get_set_same; reflexivity.
Qed.

Lemma run_effect_hook_list which config b :
  hook_list which (run_effect config b) = hook_list which config.
Proof.
  unfold hook_list, get2, in2.
  rewrite run_effect_contains, run_effect_getitem by discriminate; reflexivity.
Qed.

Lemma run_effect_prune_args config b dry_run :
  prune_args (run_effect config b) dry_run = prune_args config dry_run.
Proof.
  unfold prune_args, keep_flag.
  rewrite !run_effect_in2, !run_effect_get2 by discriminate; reflexivity.
Qed.

Lemma in2_dict config a d k :
  getitem config a = Ok (VDict d) ->
  in2 config a k = Ok (match dict_get d (KStr k) with Some _ => true | None => false end).
Proof. intros H; unfold in2; rewrite H; simpl; rewrite existsb_keys; reflexivity. Qed.

Lemma get2_dict config a d k :
  getitem config a = Ok (VDict d) ->
  get2 config a k = match dict_get d (KStr k) with
                    | Some v => Ok v
                    | None => Err (KeyError (KStr k))
                    end.
Proof. intros H; unfold get2; rewrite H; reflexivity. Qed.

Lemma keep_flag_dict config ret key flag :
  getitem config "retention" = Ok (VDict ret) ->
  keep_flag config key flag =
  Ok (match dict_get ret (KStr key) with
      | Some v => [VStr flag; VStr (py_str v)]
      | None => []
      end).
Proof.
  intros H; unfold keep_flag; rewrite (in2_dict _ _ _ _ H).
  destruct (dict_get ret (KStr key)) eqn:E; simpl; [|reflexivity].
  rewrite (get2_dict _ _ _ _ H), E; reflexivity.
Qed.

Lemma run_cmds_plain action config rm repository args :
  getitem config "remote" = Ok (VDict rm) ->
  dict_get rm (KStr "repository") = Some repository ->
  exists rsh, run_cmds action config false args (VList []) =
              Ok ([VStr "borgbackup"; VStr action] ++ args ++ [repository], rsh).
Proof.
  intros Hr Hrepo; unfold run_cmds.
  rewrite (get2_dict _ _ _ _ Hr), Hrepo; simpl.
  rewrite (in2_dict _ _ _ _ Hr); simpl.
  destruct (dict_get rm (KStr "rsh")) eqn:E; simpl.
  - rewrite (get2_dict _ _ _ _ Hr), E; simpl.
    eexists; rewrite ?app_nil_r; reflexivity.
  - eexists; rewrite ?app_nil_r; reflexivity.
Qed.

Lemma create_args_dict config dry_run rm loc source :
  getitem config "remote" = Ok (VDict rm) ->
  getitem config "location" = Ok (VDict loc) ->
  dict_get loc (KStr "source") = Some source ->
  (forall k, k = "exclude" \/ k = "exclude_if_present" ->
     forall v, dict_get loc (KStr k) = Some v -> exists l, v = VList l) ->
  create_args config dry_run =
  Ok (opt_pair "--compression" (dict_get rm (KStr "compression"))
      ++ opt_switch "--one-file-system" (dict_get loc (KStr "one_file_system"))
      ++ opt_switch "--exclude-caches" (dict_get loc (KStr "exclude_caches"))
      ++ entry_pairs "--exclude-if-present" (dict_get loc (KStr "exclude_if_present"))
      ++ entry_pairs "--exclude" (dict_get loc (KStr "exclude"))
      ++ (if dry_run then [VStr "--dry-run"] else []),
      match source with VStr _ => VList [source] | _ => source end).
Proof.
  intros Hr Hl Hsrc Hexc.
  assert (Heip := Hexc "exclude_if_present" (or_intror eq_refl)).
  assert (Hex := Hexc "exclude" (or_introl eq_refl)).
  unfold create_args.
  rewrite (get2_dict _ _ _ _ Hl), Hsrc; cbn [rbind].
  rewrite !(in2_dict _ _ _ _ Hr), !(in2_dict _ _ _ _ Hl).
  rewrite !(get2_dict _ _ _ _ Hr), !(get2_dict _ _ _ _ Hl).
  destruct (dict_get rm (KStr "compression")) eqn:E1;
  destruct (dict_get loc (KStr "one_file_system")) eqn:E2;
  destruct (dict_get loc (KStr "exclude_caches")) eqn:E3;
  destruct (dict_get loc (KStr "exclude_if_present")) as [v4|] eqn:E4;
  destruct (dict_get loc (KStr "exclude")) as [v5|] eqn:E5;
  try (destruct (Heip v4 eq_refl) as [l4 ->]);
  try (destruct (Hex v5 eq_refl) as [l5 ->]);
  reflexivity.
Qed.

Lemma run_cmds_archive action config rm repository prefix args trailing :
  getitem config "remote" = Ok (VDict rm) ->
  dict_get rm (KStr "repository") = Some (VStr repository) ->
  dict_get rm (KStr "prefix") = Some prefix ->
  exists rsh, run_cmds action config true args (VList trailing) =
    Ok ([VStr "borgbackup"; VStr action] ++ args
        ++ [VStr (String.append repository
              (String.append "::" (String.append (py_str prefix)
                (String.append "-" archive_template))))] ++ trailing, rsh).
Proof.
  intros Hr Hrepo Hp; unfold run_cmds.
  rewrite !(get2_dict _ _ _ _ Hr), Hrepo, Hp, (in2_dict _ _ _ _ Hr); cbn [rbind iadd_str].
  destruct (dict_get rm (KStr "rsh")) eqn:E; cbn [rbind list_concat]; eexists; reflexivity.
Qed.

Lemma compile_prune_dict config dry_run rm ret prefix repository :
  getitem config "remote" = Ok (VDict rm) ->
  dict_get rm (KStr "prefix") = Some prefix ->
  dict_get rm (KStr "repository") = Some repository ->
  getitem config "retention" = Ok (VDict ret) ->
  exists rsh, compile_prune config dry_run =
              Ok (prune_cmd_spec prefix repository ret dry_run, rsh).
Proof.
  intros Hr Hp Hrepo Hret.
  unfold compile_prune, prune_args.
  rewrite (get2_dict _ _ _ _ Hr), Hp; cbn [rbind].
  rewrite !(keep_flag_dict _ _ _ _ Hret); cbn [rbind].
  edestruct run_cmds_plain as [rsh Hrun]; [exact Hr|exact Hrepo|].
  rewrite Hrun; exists rsh.
  unfold prune_cmd_spec; cbn [flat_map retention_order fst snd].
  rewrite !app_nil_r, <- !app_assoc; reflexivity.
Qed.

(** ** C6: the truthy-boolean coercion *)

(** C6 (amended).  [config_is_true] accepts exactly boolean [true], a string
    that lowers to "yes" or "true", and any number equal to 1: the integer 1
    and also the float 1.0, since the code tests [value == 1]. *)
Theorem config_is_true_spec v :
  config_is_true v = true <->
  claimed_truthy v \/ (exists m e, v = VFloat m e /\ dyadic_eqZ m e 1 = true).
Proof.
  unfold claimed_truthy.
  destruct v as [|b|z|m e|s|l|d]; cbn [config_is_true py_eq_one]; split; intro H;
    try discriminate;
    try (destruct H as [[H|[[s' [H _]]|H]]|[m' [e' [H _]]]]; discriminate).
  - left; left; subst; reflexivity.
  - destruct H as [[H|[[s' [H _]]|H]]|[m' [e' [H _]]]]; try discriminate.
    injection H as ->; reflexivity.
  - apply Z.eqb_eq in H; subst; left; right; right; reflexivity.
  - destruct H as [[H|[[s' [H _]]|H]]|[m' [e' [H _]]]]; try discriminate.
    injection H as ->; reflexivity.
  - right; exists m, e; split; [reflexivity|exact H].
  - destruct H as [[H|[[s' [H _]]|H]]|[m' [e' [H He]]]]; try discriminate.
    injection H as -> ->; exact He.
  - left; right; left; exists s; split; [reflexivity|].
    destruct (String.eqb (str_lower s) "yes") eqn:Ey.
    + left; apply String.eqb_eq; exact Ey.
    + destruct (String.eqb (str_lower s) "true") eqn:Et; [|discriminate].
      right; apply String.eqb_eq; exact Et.
  - destruct H as [[H|[[s' [H Hs]]|H]]|[m' [e' [H _]]]]; try discriminate.
    injection H as <-.
    destruct Hs as [Hs|Hs]; rewrite Hs; reflexivity.
Qed.

(** C6 (counterexample).  The float 1.0 is coerced to true, although it is
    neither a boolean, nor a string, nor the integer 1. *)
Lemma config_is_true_float_one :
  config_is_true (VFloat 1 0) = true /\ ~ claimed_truthy (VFloat 1 0).
Proof.
  split; [reflexivity|].
  unfold claimed_truthy; intros [H|[[s [H _]]|H]]; discriminate.
Qed.

(** ** C2: the prune command *)

(** C2.  For a policy whose remote and retention sections are mappings with
    a prefix and a repository, the prune command is [borgbackup prune
    --stats --list --prefix <prefix>], then [--dry-run] if requested, then
    one [--keep-<kind> <value>] pair per retention key present, in the order
    keep_last, keep_within, keep_hourly, keep_daily, keep_weekly,
    keep_monthly, keep_yearly, then the bare repository; reordering the
    retention mapping's keys does not change it. *)
Theorem compile_prune_order config dry_run rm ret prefix repository :
  getitem config "remote" = Ok (VDict rm) ->
  dict_get rm (KStr "prefix") = Some prefix ->
  dict_get rm (KStr "repository") = Some repository ->
  getitem config "retention" = Ok (VDict ret) ->
  (exists rsh, compile_prune config dry_run =
               Ok (prune_cmd_spec prefix repository ret dry_run, rsh)) /\
  (forall ret', NoDup (map fst ret) -> Permutation ret ret' ->
     prune_cmd_spec prefix repository ret' dry_run =
     prune_cmd_spec prefix repository ret dry_run).
Proof.
  intros Hr Hp Hrepo Hret; split.
  - exact (compile_prune_dict config dry_run rm ret prefix repository Hr Hp Hrepo Hret).
  - intros ret' Hnd Hp'.
    unfold prune_cmd_spec; cbn [flat_map retention_order fst snd].
    rewrite !(dict_get_perm ret ret' Hnd Hp'); reflexivity.
Qed.

(** ** C1: the create command *)

(** C1.  For a policy whose remote and location sections are mappings, with
    a string repository, a prefix, a source that is a string or a list, and
    exclusion entries (when present) given as lists, the create command is
    [borgbackup create], then [--compression <v>] if remote.compression is
    set, [--one-file-system] and [--exclude-caches] if those settings are
    truthy, one [--exclude-if-present <e>] and then one [--exclude <e>] pair
    per entry in list order, [--dry-run] if requested, the repository
    argument [<repository>::<prefix>-{utcnow:...}], and the sources; the
    order of the keys in the remote and location mappings does not matter. *)
Theorem compile_create_order config dry_run rm loc repository prefix source :
  getitem config "remote" = Ok (VDict rm) ->
  getitem config "location" = Ok (VDict loc) ->
  dict_get rm (KStr "repository") = Some (VStr repository) ->
  dict_get rm (KStr "prefix") = Some prefix ->
  dict_get loc (KStr "source") = Some source ->
  (exists s, source = VStr s) \/ (exists l, source = VList l) ->
  (forall k, k = "exclude" \/ k = "exclude_if_present" ->
     forall v, dict_get loc (KStr k) = Some v -> exists l, v = VList l) ->
  (exists rsh, compile_create config dry_run =
     Ok (create_cmd_spec rm loc repository prefix (source_list source) dry_run, rsh)) /\
  (forall rm' loc', NoDup (map fst rm) -> Permutation rm rm' ->
     NoDup (map fst loc) -> Permutation loc loc' ->
     create_cmd_spec rm' loc' repository prefix (source_list source) dry_run =
     create_cmd_spec rm loc repository prefix (source_list source) dry_run).
Proof.
  intros Hr Hl Hrepo Hp Hsrc Hshape Hexc; split.
  - unfold compile_create.
    rewrite (create_args_dict config dry_run rm loc source Hr Hl Hsrc Hexc); cbn [rbind fst snd].
    destruct Hshape as [[s ->]|[l ->]].
    + edestruct (run_cmds_archive "create" config rm repository prefix) as [rsh Hrun];
        [exact Hr|exact Hrepo|exact Hp|].
      rewrite Hrun; exists rsh; unfold create_cmd_spec; simpl source_list.
      rewrite <- !app_assoc; reflexivity.
    + edestruct (run_cmds_archive "create" config rm repository prefix) as [rsh Hrun];
        [exact Hr|exact Hrepo|exact Hp|].
      rewrite Hrun; exists rsh; unfold create_cmd_spec; simpl source_list.
      rewrite <- !app_assoc; reflexivity.
  - intros rm' loc' Hnr Hpr Hnl Hpl; unfold create_cmd_spec.
    rewrite !(dict_get_perm rm rm' Hnr Hpr), !(dict_get_perm loc loc' Hnl Hpl).
    reflexivity.
Qed.

(** ** C9: a single source string *)

Lemma get2_location_source_inv config s :
  get2 config "location" "source" = Ok (VStr s) ->
  exists d loc, config = VDict d /\
    dict_get d (KStr "location") = Some (VDict loc) /\
    dict_get loc (KStr "source") = Some (VStr s).
Proof.
  unfold get2, rbind, getitem.
  destruct config as [| | | | | |d]; try discriminate.
  destruct (dict_get d (KStr "location")) as [v|] eqn:Ed; [|discriminate].
  destruct v as [| | | | | |loc]; try discriminate.
  destruct (dict_get loc (KStr "source")) eqn:E; [|discriminate].
  intros H; injection H as ->; exists d, loc; auto.
Qed.

(** C9.  When location.source is a string [s], the create command is the
    one compiled from the same policy with location.source set to [[s]]. *)
Theorem compile_create_source_string config dry_run s :
  get2 config "location" "source" = Ok (VStr s) ->
  compile_create (with_location_source config (VList [VStr s])) dry_run =
  compile_create config dry_run.
Proof.
  intros H.
  destruct (get2_location_source_inv config s H) as [d [loc [-> [Hd Hsrc]]]].
  unfold with_location_source; rewrite Hd.
  set (loc' := dict_set loc (KStr "source") (VList [VStr s])).
  set (d' := dict_set d (KStr "location") (VDict loc')).
  assert (Hrem : getitem (VDict d') "remote" = getitem (VDict d) "remote").
  { unfold getitem, d'; rewrite dict_get_set_other by reflexivity; reflexivity. }
  assert (Hl' : getitem (VDict d') "location" = Ok (VDict loc')).
  { unfold getitem, d'; rewrite dict_get_set_same; reflexivity. }
  assert (Hl : getitem (VDict d) "location" = Ok (VDict loc)).
  { unfold getitem; rewrite Hd; reflexivity. }
  unfold compile_create, create_args, run_cmds, get2, in2.
  rewrite Hrem, Hl', Hl; cbn [rbind contains getitem].
  rewrite !existsb_keys.
  unfold loc'; rewrite dict_get_set_same, Hsrc; cbn [rbind].
  rewrite !dict_get_set_other by reflexivity.
  reflexivity.
Qed.

(** ** Hooks and the create pipeline *)

Local Open Scope Z_scope.

Lemma bind_ok_trace {A B} t (a : A) (f : A -> M B) :
  bind (t, Ok a) f = (t ++ fst (f a), snd (f a)).
Proof. unfold bind; destruct (f a); reflexivity. Qed.

Lemma bind_nil_ok {A B} (a : A) (f : A -> M B) : bind ([], Ok a) f = f a.
Proof. unfold bind; destruct (f a); reflexivity. Qed.

Lemma hooks_of_list which config dry_run :
  hooks_of which config dry_run =
  match hook_list which config with
  | Ok hs => run_hooks dry_run hs
  | Err e => ([], Err e)
  end.
Proof.
  unfold hooks_of, hook_list, lift, bind.
  destruct (contains config "hooks") as [[|]|e]; cbn [rbind negb]; try reflexivity.
  destruct (in2 config "hooks" which) as [[|]|e]; cbn [rbind negb]; try reflexivity.
  destruct (v <-? get2 config "hooks" which ;; py_iter v) as [hs|e]; cbn [rbind]; [|reflexivity].
  destruct (run_hooks dry_run hs); reflexivity.
Qed.

Lemma run_hooks_ok dry_run hs :
  (dry_run = false -> Forall (fun h => hook_status h = 0) hs) ->
  run_hooks dry_run hs = (map (hook_event dry_run) hs, Ok tt).
Proof.
  induction hs as [|h t IH]; intros Hok; [reflexivity|].
  cbn [run_hooks map].
  assert (IH' : run_hooks dry_run t = (map (hook_event dry_run) t, Ok tt)).
  { apply IH; intros Hd; specialize (Hok Hd); inversion Hok; assumption. }
  destruct dry_run.
  - unfold print; rewrite bind_ok_trace, IH'; reflexivity.
  - specialize (Hok eq_refl); inversion Hok as [|? ? Hh _]; subst.
    unfold run_hook; rewrite Hh; cbn [Z.eqb]; rewrite bind_ok_trace, IH'; reflexivity.
Qed.

Lemma run_hooks_fail pre h post :
  Forall (fun h' => hook_status h' = 0) pre ->
  hook_status h <> 0 ->
  run_hooks false (pre ++ h :: post) =
  (map EvHook pre ++ [EvHook h], Err (CalledProcessError (hook_status h))).
Proof.
  intros Hpre Hh; induction Hpre as [|h' pre Hh' _ IH]; cbn [run_hooks app map].
  - unfold run_hook, bind; rewrite (proj2 (Z.eqb_neq _ _) Hh); reflexivity.
  - unfold run_hook at 1; rewrite Hh'; cbn [Z.eqb]; rewrite bind_ok_trace, IH; reflexivity.
Qed.

Lemma run_hooks_no_run dry_run hs ev :
  In ev (fst (run_hooks dry_run hs)) -> is_run ev = false.
Proof.
  induction hs as [|h t IH]; cbn [run_hooks]; [contradiction|].
  destruct dry_run; unfold print, run_hook, bind.
  - destruct (run_hooks true t) as [t' r] eqn:E; cbn [fst] in *.
    intros [<-|Hin]; [reflexivity|apply IH; exact Hin].
  - destruct (Z.eqb (hook_status h) 0); cbn [fst].
    + destruct (run_hooks false t) as [t' r] eqn:E; cbn [fst] in *.
      intros [<-|Hin]; [reflexivity|apply IH; exact Hin].
    + intros [<-|[]]; reflexivity.
Qed.

Lemma hooks_of_no_run which config dry_run ev :
  In ev (fst (hooks_of which config dry_run)) -> is_run ev = false.
Proof.
  rewrite hooks_of_list; destruct (hook_list which config); [apply run_hooks_no_run|].
  intros [].
Qed.

Lemma action_create_compiled config dry_run :
  action_create config dry_run =
  match compile_create config dry_run with
  | Ok c => ([EvRun (fst c) (snd c)],
             if Z.eqb (tool_status (fst c)) 0 then Ok (run_effect config true)
             else Err (CalledProcessError (tool_status (fst c))))
  | Err e => ([], Err e)
  end.
Proof.
  unfold action_create, compile_create, run, lift, bind, invoke, ret.
  destruct (create_args config dry_run) as [a|e]; cbn [rbind]; [|reflexivity].
  destruct (run_cmds "create" config true (fst a) (snd a)) as [c|e]; [|reflexivity].
  destruct (Z.eqb (tool_status (fst c)) 0); reflexivity.
Qed.

Lemma action_prune_compiled config dry_run :
  action_prune config dry_run =
  match compile_prune config dry_run with
  | Ok c => ([EvRun (fst c) (snd c)],
             if Z.eqb (tool_status (fst c)) 0 then Ok tt
             else Err (CalledProcessError (tool_status (fst c))))
  | Err e => ([], Err e)
  end.
Proof.
  unfold action_prune, compile_prune, run, lift, bind, invoke, ret.
  destruct (prune_args config dry_run) as [a|e]; cbn [rbind]; [|reflexivity].
  destruct (run_cmds "prune" config false a (VList [])) as [c|e]; [|reflexivity].
  destruct (Z.eqb (tool_status (fst c)) 0); reflexivity.
Qed.

(** C3 (amended).  When the hooks, the create command and the tools all
    succeed, the create action runs the before-hooks in order, one create
    invocation, the after-hooks in order, and then one prune invocation, or
    no prune at all under --no-prune.  Under --dry-run each hook is only
    reported as skipped ([hook_event]), and the tool still runs.  The prune
    command is the one compiled from the configuration as the create call
    left it ([run_effect]): a list repository has been extended in place. *)
Theorem create_execute_sequence config dry_run bs afs cc :
  hook_list "before" config = Ok bs ->
  hook_list "after" config = Ok afs ->
  compile_create config dry_run = Ok cc ->
  (dry_run = false -> Forall (fun h => hook_status h = 0) (bs ++ afs)) ->
  tool_status (fst cc) = 0 ->
  create_execute config dry_run true =
    (map (hook_event dry_run) bs ++ [EvRun (fst cc) (snd cc)]
       ++ map (hook_event dry_run) afs, Ok tt) /\
  (forall pc, compile_prune (run_effect config true) dry_run = Ok pc ->
   tool_status (fst pc) = 0 ->
   create_execute config dry_run false =
    (map (hook_event dry_run) bs ++ [EvRun (fst cc) (snd cc)]
       ++ map (hook_event dry_run) afs ++ [EvRun (fst pc) (snd pc)], Ok tt)).
Proof.
  intros Hb Ha Hc Hhooks Hcs.
  assert (Hbr : hooks_before config dry_run = (map (hook_event dry_run) bs, Ok tt)).
  { unfold hooks_before; rewrite hooks_of_list, Hb; apply run_hooks_ok.
    intros Hd; apply (Forall_app _ bs afs); auto. }
  assert (Har : hooks_after (run_effect config true) dry_run =
                (map (hook_event dry_run) afs, Ok tt)).
  { unfold hooks_after; rewrite hooks_of_list, run_effect_hook_list, Ha; apply run_hooks_ok.
    intros Hd; apply (Forall_app _ bs afs); auto. }
  assert (Hcr : action_create config dry_run =
                ([EvRun (fst cc) (snd cc)], Ok (run_effect config true))).
  { rewrite action_create_compiled, Hc, Hcs; reflexivity. }
  unfold create_execute; rewrite Hbr, bind_ok_trace, Hcr, bind_ok_trace, Har.
  split.
  - cbn [fst snd negb]; rewrite bind_ok_trace; cbn [fst snd ret].
    rewrite <- ?app_assoc, ?app_nil_r; reflexivity.
  - intros pc Hp Hps.
    assert (Hpr : action_prune (run_effect config true) dry_run =
                  ([EvRun (fst pc) (snd pc)], Ok tt)).
    { rewrite action_prune_compiled, Hp, Hps; reflexivity. }
    rewrite bind_ok_trace; cbv beta; rewrite bind_ok_trace; cbn [fst snd negb].
    rewrite Har, bind_ok_trace; cbn [fst snd negb].
    rewrite Hpr; cbn [fst snd].
    rewrite <- ?app_assoc; reflexivity.
Qed.

(** C4.  With dry-run off, when the before-hooks are [pre ++ h :: post],
    every hook of [pre] exits 0 and [h] exits non-zero, the create action
    runs the hooks of [pre] and [h] and nothing else (no later hook, no
    create, no after-hook, no prune), and fails with [h]'s exit status. *)
Theorem create_execute_hook_failure config no_prune pre h post :
  hook_list "before" config = Ok (pre ++ h :: post) ->
  Forall (fun h' => hook_status h' = 0) pre ->
  hook_status h <> 0 ->
  create_execute config false no_prune =
    (map EvHook pre ++ [EvHook h], Err (CalledProcessError (hook_status h))).
Proof.
  intros Hb Hpre Hh.
  unfold create_execute, hooks_before; rewrite hooks_of_list, Hb.
  rewrite (run_hooks_fail pre h post Hpre Hh); reflexivity.
Qed.

Lemma compile_create_missing config dry_run key :
  key = "repository" \/ key = "prefix" ->
  (forall v, get2 config "remote" key <> Ok v) ->
  exists e, compile_create config dry_run = Err e.
Proof.
  intros Hkey Hmiss; unfold compile_create.
  destruct (create_args config dry_run) as [a|e]; cbn [rbind]; [|eauto].
  unfold run_cmds.
  destruct (get2 config "remote" "repository") as [r|e] eqn:Er; cbn [rbind]; [|eauto].
  destruct (get2 config "remote" "prefix") as [p|e] eqn:Ep; cbn [rbind]; [|eauto].
  exfalso; destruct Hkey as [->| ->]; eapply Hmiss; eassumption.
Qed.

Lemma compile_prune_missing config dry_run key :
  key = "repository" \/ key = "prefix" ->
  (forall v, get2 config "remote" key <> Ok v) ->
  exists e, compile_prune config dry_run = Err e.
Proof.
  intros [->| ->] Hmiss; unfold compile_prune.
  - destruct (prune_args config dry_run) as [a|e]; cbn [rbind]; [|eauto].
    unfold run_cmds.
    destruct (get2 config "remote" "repository") as [r|e] eqn:Er; cbn [rbind]; [|eauto].
    exfalso; eapply Hmiss; reflexivity.
  - unfold prune_args.
    destruct (get2 config "remote" "prefix") as [p|e] eqn:Ep; cbn [rbind]; [|eauto].
    exfalso; eapply Hmiss; reflexivity.
Qed.

(** C7 (amended).  When remote.repository or remote.prefix cannot be read,
    the create action fails and never invokes borgbackup, though its
    before-hooks have already been processed: when they succeed (or under
    --dry-run) the trace is exactly the before-hooks, run or reported as
    skipped, followed by the failure.  The prune action fails before
    launching any process. *)
Theorem missing_remote_key_no_tool config dry_run no_prune key :
  key = "repository" \/ key = "prefix" ->
  (forall v, get2 config "remote" key <> Ok v) ->
  (forall bs, hook_list "before" config = Ok bs ->
   (dry_run = false -> Forall (fun h => hook_status h = 0) bs) ->
   exists e, create_execute config dry_run no_prune = (map (hook_event dry_run) bs, Err e)) /\
  (forall ev, In ev (fst (create_execute config dry_run no_prune)) -> is_run ev = false) /\
  (exists e, snd (create_execute config dry_run no_prune) = Err e) /\
  (exists e, action_prune config dry_run = ([], Err e)).
Proof.
  intros Hkey Hmiss.
  destruct (compile_create_missing config dry_run key Hkey Hmiss) as [e He].
  destruct (compile_prune_missing config dry_run key Hkey Hmiss) as [e' He'].
  assert (Hc : action_create config dry_run = ([], Err e)).
  { rewrite action_create_compiled, He; reflexivity. }
  split; [|split; [|split]].
  - intros bs Hb Hh; exists e; unfold create_execute, hooks_before.
    rewrite hooks_of_list, Hb, (run_hooks_ok dry_run bs Hh), bind_ok_trace, Hc.
    cbn [bind fst snd]; rewrite app_nil_r; reflexivity.
  - intros ev; unfold create_execute.
    destruct (hooks_before config dry_run) as [t [u|e2]] eqn:Eh.
    + rewrite bind_ok_trace, Hc; cbn [fst bind]; rewrite app_nil_r.
      intros Hin; apply (hooks_of_no_run "before" config dry_run).
      unfold hooks_before in Eh; rewrite Eh; exact Hin.
    + cbn [bind fst]; intros Hin; apply (hooks_of_no_run "before" config dry_run).
      unfold hooks_before in Eh; rewrite Eh; exact Hin.
  - unfold create_execute.
    destruct (hooks_before config dry_run) as [t [u|e2]] eqn:Eh.
    + rewrite bind_ok_trace, Hc; cbn [snd bind]; eauto.
    + cbn [bind snd]; eauto.
  - exists e'; rewrite action_prune_compiled, He'; reflexivity.
Qed.

(** C10.  For a configuration mapping [d]: the create action (action_create)
    fails with a KeyError, before any process, when location or
    location.source is missing; the prune action (action_prune) fails with a
    KeyError, before any process, when the retention section is missing; and
    when that section is a mapping, its keys are all optional: the prune
    command compiles whatever keys it holds. *)
Theorem missing_source_or_retention d dry_run :
  ((dict_get d (KStr "location") = None \/
    exists loc, dict_get d (KStr "location") = Some (VDict loc) /\
                dict_get loc (KStr "source") = None) ->
   exists k, action_create (VDict d) dry_run = ([], Err (KeyError k))) /\
  (forall rm, dict_get d (KStr "remote") = Some (VDict rm) ->
   dict_get d (KStr "retention") = None ->
   exists k, action_prune (VDict d) dry_run = ([], Err (KeyError k))) /\
  (forall rm ret prefix repository,
   dict_get d (KStr "remote") = Some (VDict rm) ->
   dict_get rm (KStr "prefix") = Some prefix ->
   dict_get rm (KStr "repository") = Some repository ->
   dict_get d (KStr "retention") = Some (VDict ret) ->
   exists c, compile_prune (VDict d) dry_run = Ok c).
Proof.
  split; [|split].
  - intros Hloc; unfold action_create, create_args, get2, lift, bind.
    cbn [getitem].
    destruct Hloc as [Hn|[loc [Hl Hs]]].
    + rewrite Hn; cbn [rbind]; eexists; reflexivity.
    + rewrite Hl; cbn [rbind getitem]; rewrite Hs; eexists; reflexivity.
  - intros rm Hrem Hret.
    unfold action_prune, prune_args, keep_flag, in2, get2, lift, bind.
    cbn [getitem]; rewrite Hrem; cbn [rbind getitem].
    destruct (dict_get rm (KStr "prefix")); cbn [rbind]; [rewrite Hret|]; eexists; reflexivity.
  - intros rm ret prefix repository Hrem Hp Hrepo Hret.
    assert (Hr : getitem (VDict d) "remote" = Ok (VDict rm)) by (cbn; rewrite Hrem; reflexivity).
    assert (Ht : getitem (VDict d) "retention" = Ok (VDict ret)) by (cbn; rewrite Hret; reflexivity).
    destruct (compile_prune_dict (VDict d) dry_run rm ret prefix repository Hr Hp Hrepo Ht)
      as [rsh Hc].
    eexists; exact Hc.
Qed.

(** ** The age check *)

Lemma round_half_even_bounds num den : 0 < den ->
  num / den <= round_half_even num den /\
  2 * round_half_even num den * den <= 2 * num + den /\
  2 * num - den <= 2 * round_half_even num den * den.
Proof.
  intros Hd.
  pose proof (Z.div_mod num den ltac:(lia)) as Hdm.
  pose proof (Z.mod_pos_bound num den Hd) as Hr.
  unfold round_half_even.
  set (m := num / den) in *; set (r := num mod den) in *.
  destruct (Z.ltb_spec (2 * r) den); [nia|].
  destruct (Z.ltb_spec den (2 * r)); [nia|].
  destruct (Z.even m); nia.
Qed.

Lemma scale_den_pos a q e : 0 < q -> 0 < snd (scale a q e).
Proof.
  intros Hq; unfold scale; destruct (Z.ltb_spec e 0); cbn [snd]; [lia|].
  pose proof (Z.pow_pos_nonneg 2 e ltac:(lia) ltac:(lia)); nia.
Qed.

Lemma scale_succ a q e :
  2 * fst (scale a q (e + 1)) * snd (scale a q e) = fst (scale a q e) * snd (scale a q (e + 1)).
Proof.
  unfold scale; destruct (Z.ltb_spec (e + 1) 0), (Z.ltb_spec e 0); cbn [fst snd]; try lia.
  - replace (- e) with (- (e + 1) + 1) by lia.
    rewrite Z.pow_add_r by lia; ring.
  - replace (- e) with 1 by lia; replace (e + 1) with 0 by lia.
    rewrite Z.pow_1_r, Z.pow_0_r; ring.
  - rewrite Z.pow_add_r by lia; ring.
Qed.

Lemma scale_e0 a q : 0 < a -> 0 < q ->
  2 ^ 52 * snd (scale a q (Z.log2 a - Z.log2 q - 53))
  <= fst (scale a q (Z.log2 a - Z.log2 q - 53)).
Proof.
  intros Ha Hq.
  destruct (Z.log2_spec a Ha) as [Ha1 _].
  destruct (Z.log2_spec q Hq) as [_ Hq2].
  pose proof (Z.log2_nonneg a); pose proof (Z.log2_nonneg q).
  set (la := Z.log2 a) in *; set (lq := Z.log2 q) in *.
  unfold scale; destruct (Z.ltb_spec (la - lq - 53) 0); cbn [fst snd].
  - assert (E : 2 ^ (lq + 53) = 2 ^ la * 2 ^ (- (la - lq - 53)))
      by (rewrite <- Z.pow_add_r by lia; f_equal; lia).
    assert (E2 : 2 ^ (lq + 53) = 2 ^ 52 * 2 ^ (Z.succ lq))
      by (rewrite <- Z.pow_add_r by lia; f_equal; lia).
    pose proof (Z.pow_pos_nonneg 2 (- (la - lq - 53)) ltac:(lia) ltac:(lia)).
    nia.
  - assert (E : 2 ^ la = 2 ^ 52 * (2 ^ (Z.succ lq) * 2 ^ (la - lq - 53)))
      by (rewrite <- !Z.pow_add_r by lia; f_equal; lia).
    pose proof (Z.pow_pos_nonneg 2 (la - lq - 53) ltac:(lia) ltac:(lia)).
    nia.
Qed.

Lemma int_true_div_shape p q : 0 < q -> p <> 0 ->
  exists e, int_true_div p q =
    (Z.sgn p * round_half_even (fst (scale (Z.abs p) q e)) (snd (scale (Z.abs p) q e)), e) /\
    2 ^ 52 * snd (scale (Z.abs p) q e) <= fst (scale (Z.abs p) q e).
Proof.
  intros Hq Hp.
  assert (Ha : 0 < Z.abs p) by lia.
  unfold int_true_div.
  destruct (Z.eqb_spec (Z.abs p) 0) as [|_]; [lia|].
  set (a := Z.abs p) in *.
  set (e0 := Z.log2 a - Z.log2 q - 53).
  pose proof (scale_e0 a q Ha Hq) as H0; fold e0 in H0.
  destruct (Z.ltb_spec (fst (scale a q e0) / snd (scale a q e0)) (2 ^ 53)).
  - eexists; split; [reflexivity|exact H0].
  - eexists; split; [reflexivity|].
    pose proof (scale_succ a q e0) as Hs.
    pose proof (scale_den_pos a q e0 Hq) as Hd0.
    pose proof (scale_den_pos a q (e0 + 1) Hq) as Hd1.
    pose proof (Z.div_mod (fst (scale a q e0)) (snd (scale a q e0)) ltac:(lia)) as Hdm.
    pose proof (Z.mod_pos_bound (fst (scale a q e0)) (snd (scale a q e0)) Hd0) as Hr.
    set (n0 := fst (scale a q e0)) in *; set (d0 := snd (scale a q e0)) in *.
    set (n1 := fst (scale a q (e0 + 1))) in *; set (d1 := snd (scale a q (e0 + 1))) in *.
    assert (Hn0 : 2 ^ 53 * d0 <= n0) by nia.
    nia.
Qed.

(** Below 2^34 seconds, comparing the rounded [total_seconds()] with an int
    [n] is the exact comparison of the elapsed microseconds with [n * 10^6]:
    a double near such a value has a spacing below 2 microseconds, and the
    elapsed time is a whole number of microseconds. *)
Lemma total_seconds_exact us n : Z.abs n < 2 ^ 34 ->
  float_gt_int (total_seconds us) n = (n * 1000000 <? us).
Proof.
  intros Hn; unfold total_seconds.
  destruct (Z.eq_dec us 0) as [->|Hus].
  - unfold int_true_div; cbn -[Z.pow]; destruct (Z.ltb_spec n 0), (Z.ltb_spec (n * 1000000) 0); lia.
  - destruct (int_true_div_shape us 1000000 ltac:(lia) Hus) as [e [-> Hlow]].
    pose proof (scale_den_pos (Z.abs us) 1000000 e ltac:(lia)) as Hd.
    pose proof (round_half_even_bounds (fst (scale (Z.abs us) 1000000 e))
                  (snd (scale (Z.abs us) 1000000 e)) Hd) as [R1 [R2 R3]].
    assert (Hm52 : 2 ^ 52 <= round_half_even (fst (scale (Z.abs us) 1000000 e))
                                 (snd (scale (Z.abs us) 1000000 e))).
    { eapply Z.le_trans; [|exact R1]. apply Z.div_le_lower_bound; lia. }
    revert Hlow R1 R2 R3 Hd Hm52.
    unfold float_gt_int, scale.
    set (m := round_half_even _ _).
    destruct (Z.ltb_spec e 0) as [He|He]; cbn [fst snd] in *.
    + (* e < 0: num = |us| * 2^k, den = 10^6 *)
      set (k := - e).
      assert (Hk : 0 < k) by lia.
      pose proof (Z.pow_pos_nonneg 2 k ltac:(lia) ltac:(lia)) as HP.
      set (P := 2 ^ k) in *.
      intros Hlow R1 R2 R3 _ Hm52.
      assert (Hsmall : k <= 18 -> P <= 2 ^ 18)
        by (intros; apply Z.pow_le_mono_r; lia).
      assert (Hbig : 19 <= k -> 2 ^ 19 <= P)
        by (intros; apply Z.pow_le_mono_r; lia).
      destruct (Z.ltb_spec 0 us) as [Hpos|Hneg].
      * rewrite Z.abs_eq in * by lia; rewrite (Z.sgn_pos us Hpos) in *.
        destruct (Z.ltb_spec (n * 1000000) us) as [Hgt|Hle].
        -- apply Z.ltb_lt.
           destruct (Z.le_gt_cases k 18) as [Hk18|Hk19].
           ++ specialize (Hsmall Hk18). nia.
           ++ specialize (Hbig ltac:(lia)). nia.
        -- apply Z.ltb_ge. nia.
      * rewrite Z.abs_neq in * by lia.
        assert (Hsg : Z.sgn us = -1) by (apply Z.sgn_neg; lia). rewrite Hsg in *.
        destruct (Z.ltb_spec (n * 1000000) us) as [Hgt|Hle].
        -- apply Z.ltb_lt.
           destruct (Z.le_gt_cases k 18) as [Hk18|Hk19].
           ++ specialize (Hsmall Hk18). nia.
           ++ specialize (Hbig ltac:(lia)). nia.
        -- apply Z.ltb_ge.
           destruct (Z.le_gt_cases 0 n); [nia|].
           assert (Hq : - n * P <= - us * P / 1000000)
             by (apply Z.div_le_lower_bound; nia).
           nia.
    + intros Hlow R1 R2 R3 _ Hm52.
      pose proof (Z.pow_pos_nonneg 2 e ltac:(lia) He) as HP.
      destruct (Z.ltb_spec 0 us) as [Hpos|Hneg].
      * rewrite Z.abs_eq in * by lia; rewrite (Z.sgn_pos us Hpos) in *.
        destruct (Z.ltb_spec (n * 1000000) us); [apply Z.ltb_lt|apply Z.ltb_ge]; nia.
      * rewrite Z.abs_neq in * by lia.
        assert (Hsg : Z.sgn us = -1) by (apply Z.sgn_neg; lia). rewrite Hsg in *.
        destruct (Z.ltb_spec (n * 1000000) us); [apply Z.ltb_lt|apply Z.ltb_ge]; nia.
Qed.

Lemma evaluate_unfold last_backup a0 st t max_age min_size :
  first_archive last_backup = Ok a0 ->
  getitem a0 "start" = Ok st ->
  strptime st = Ok t ->
  evaluate last_backup max_age min_size =
  if float_gt_int (total_seconds (now_us - t)) max_age then
    ([EvPrint (too_old_message st)], Err (SystemExit 1))
  else
    bind (lift (s <-? getitem a0 "stats" ;; getitem s "original_size"))
      (fun size =>
         small <- (match min_size with
                   | Some m => if opt_truthy min_size then lift (py_lt_int size m) else ret false
                   | None => ret false
                   end) ;;
         if small then
           (_ <- print (too_small_message size (match min_size with Some m => m | None => 0 end)) ;;
            raise (SystemExit 1))
         else print ok_message).
Proof.
  intros Ha Hs Ht; unfold evaluate.
  rewrite Ha; cbn [rbind]; rewrite Hs.
  unfold lift at 1 2; rewrite bind_nil_ok, Ht, bind_nil_ok.
  destruct (float_gt_int (total_seconds (now_us - t)) max_age); [|reflexivity].
  unfold lift, print, raise; rewrite bind_nil_ok; reflexivity.
Qed.

(** C5 (amended).  For a report whose first archive has a parseable start [t] and an
    integer original_size: the verdict is OK (exit 0) when the elapsed time
    is at most [max_age] seconds and [min_size] is absent or at most the
    size; it is WARN_TOO_OLD (exit 1) whenever the elapsed time exceeds
    [max_age], whatever the size; and a WARN_TOO_SMALL verdict (exit 1)
    only comes with an elapsed time within [max_age] and a size strictly
    below [min_size].  Times are in microseconds; [max_age] is below 2^34
    seconds in absolute value (about 544 years), the range in which the
    code's floating-point comparison of the age is exact. *)
Theorem evaluate_verdict last_backup a0 start t stats size max_age min_size :
  Z.abs max_age < 2 ^ 34 ->
  first_archive last_backup = Ok a0 ->
  getitem a0 "start" = Ok (VStr start) ->
  strptime_us start = Some t ->
  getitem a0 "stats" = Ok stats ->
  getitem stats "original_size" = Ok (VInt size) ->
  (now_us - t <= max_age * 1000000 ->
   match min_size with None => True | Some m => m <= size end ->
   evaluate last_backup max_age min_size = ([EvPrint ok_message], Ok tt)
   /\ exit_status (Ok tt) = 0) /\
  (max_age * 1000000 < now_us - t ->
   evaluate last_backup max_age min_size =
     ([EvPrint (too_old_message (VStr start))], Err (SystemExit 1))
   /\ exit_status (Err (SystemExit 1)) = 1) /\
  (forall tr, evaluate last_backup max_age min_size = (tr, Err (SystemExit 1)) ->
   tr <> [EvPrint (too_old_message (VStr start))] ->
   now_us - t <= max_age * 1000000 /\
   exists m, min_size = Some m /\ size < m /\
             tr = [EvPrint (too_small_message (VInt size) m)]).
Proof.
  intros Hb Ha Hs Ht Hst Hsz.
  assert (Hp : strptime (VStr start) = Ok t) by (cbn; rewrite Ht; reflexivity).
  rewrite (evaluate_unfold last_backup a0 (VStr start) t max_age min_size Ha Hs Hp).
  rewrite (total_seconds_exact (now_us - t) max_age Hb).
  assert (Hsize : (s <-? getitem a0 "stats" ;; getitem s "original_size") = Ok (VInt size))
    by (rewrite Hst; exact Hsz).
  rewrite Hsize; unfold lift; rewrite bind_nil_ok.
  split; [|split].
  - intros Hage Hmin.
    rewrite (proj2 (Z.ltb_ge _ _) Hage).
    destruct min_size as [m|]; cbn [opt_truthy].
    + destruct (Z.eqb m 0) eqn:Em; cbn [negb].
      * split; reflexivity.
      * cbn [py_lt_int]; rewrite (proj2 (Z.ltb_ge _ _) Hmin); split; reflexivity.
    + split; reflexivity.
  - intros Hage; rewrite (proj2 (Z.ltb_lt _ _) Hage); split; reflexivity.
  - intros tr H Hne.
    destruct (Z.ltb (max_age * 1000000) (now_us - t)) eqn:Eage.
    + injection H as <-; contradiction.
    + apply Z.ltb_ge in Eage; split; [exact Eage|].
      destruct min_size as [m|]; cbn [opt_truthy] in H.
      * destruct (Z.eqb m 0) eqn:Em; cbn [negb] in H.
        -- cbn in H; discriminate.
        -- cbn [py_lt_int] in H.
           destruct (Z.ltb size m) eqn:El; rewrite bind_nil_ok in H; [|discriminate].
           injection H as <-.
           apply Z.ltb_lt in El.
           exists m; split; [reflexivity|split; [exact El|reflexivity]].
      * cbn in H; discriminate.
Qed.

Lemma getitem_err_not_exit v k e : getitem v k = Err e -> forall c, e <> SystemExit c.
Proof.
  destruct v as [|b|z|m e0|s|l|d]; cbn; try (intros H; injection H as <-; discriminate).
  destruct (dict_get d (KStr k)); intros H; [discriminate|injection H as <-; discriminate].
Qed.

Lemma first_archive_err_not_exit v e : first_archive v = Err e -> forall c, e <> SystemExit c.
Proof.
  unfold first_archive.
  destruct (getitem v "archives") as [a|e'] eqn:E; cbn [rbind].
  - destruct a as [|b|z|m e0|s|l|d]; cbn; try (intros H; injection H as <-; discriminate).
    all: match goal with
         | |- (match ?x with _ => _ end) = _ -> _ => destruct x
         end; intros H; [discriminate|injection H as <-; discriminate].
  - intros H; injection H as <-; exact (getitem_err_not_exit _ _ _ E).
Qed.

Lemma strptime_err_not_exit v e : strptime v = Err e -> forall c, e <> SystemExit c.
Proof.
  destruct v as [|b|z|m e0|s|l|d]; cbn; try (intros H; injection H as <-; discriminate).
  destruct (strptime_us s); intros H; [discriminate|injection H as <-; discriminate].
Qed.

(** C8 (amended).  A report whose archive list is missing, empty or not
    indexable, or whose first archive has no parseable start, makes the
    check fail with an exception before any verdict is printed.  The rest of
    the record is read lazily: once the first archive's start is valid and
    older than [max_age] (below 2^34 seconds in absolute value, where the
    code's floating-point comparison of the age is exact), the verdict is
    WARN_TOO_OLD whatever else the record holds. *)
Theorem evaluate_malformed_report last_backup max_age min_size :
  ((forall a0, first_archive last_backup <> Ok a0) ->
   exists e, evaluate last_backup max_age min_size = ([], Err e) /\
             forall c, e <> SystemExit c) /\
  (forall a0, first_archive last_backup = Ok a0 ->
   (forall t, (st <-? getitem a0 "start" ;; strptime st) <> Ok t) ->
   exists e, evaluate last_backup max_age min_size = ([], Err e) /\
             forall c, e <> SystemExit c) /\
  (forall a0 st t, first_archive last_backup = Ok a0 ->
   getitem a0 "start" = Ok st -> strptime st = Ok t ->
   Z.abs max_age < 2 ^ 34 ->
   max_age * 1000000 < now_us - t ->
   evaluate last_backup max_age min_size =
     ([EvPrint (too_old_message st)], Err (SystemExit 1))).
Proof.
  split; [|split].
  - intros Hno.
    destruct (first_archive last_backup) as [a0|e] eqn:E;
      [exfalso; exact (Hno a0 eq_refl)|].
    exists e; split; [|exact (first_archive_err_not_exit _ _ E)].
    unfold evaluate; rewrite E; reflexivity.
  - intros a0 Ha Hbad.
    destruct (getitem a0 "start") as [st|e] eqn:Es.
    + destruct (strptime st) as [t|e] eqn:Et.
      * exfalso; apply (Hbad t); cbn [rbind]; exact Et.
      * exists e; split; [|exact (strptime_err_not_exit _ _ Et)].
        unfold evaluate; rewrite Ha; cbn [rbind]; rewrite Es.
        unfold lift at 1 2; rewrite bind_nil_ok, Et; reflexivity.
    + exists e; split; [|exact (getitem_err_not_exit _ _ _ Es)].
      unfold evaluate; rewrite Ha; cbn [rbind]; rewrite Es; reflexivity.
  - intros a0 st t Ha Hs Ht Hb Hage.
    rewrite (evaluate_unfold last_backup a0 st t max_age min_size Ha Hs Ht).
    rewrite (total_seconds_exact (now_us - t) max_age Hb).
    rewrite (proj2 (Z.ltb_lt _ _) Hage); reflexivity.
Qed.

End Borgwrap.

(** ** Witnesses and counterexamples *)

Lemma compile_create_order_witness :
  ((exists rsh, compile_create str_other full_config true =
      Ok (create_cmd_spec str_other full_remote full_location "/path/testrepo"
            (VStr "testprefix") (source_list (VStr "/home")) true,
          rsh)) /\
   (forall rm' loc', NoDup (map fst full_remote) -> Permutation full_remote rm' ->
      NoDup (map fst full_location) -> Permutation full_location loc' ->
      create_cmd_spec str_other rm' loc' "/path/testrepo" (VStr "testprefix")
        (source_list (VStr "/home")) true =
      create_cmd_spec str_other full_remote full_location "/path/testrepo" (VStr "testprefix")
        (source_list (VStr "/home")) true)) /\
  create_cmd_spec str_other full_remote full_location "/path/testrepo" (VStr "testprefix")
    (source_list (VStr "/home")) true =
  [VStr "borgbackup"; VStr "create"; VStr "--compression"; VStr "lz4";
   VStr "--one-file-system"; VStr "--exclude-caches";
   VStr "--exclude-if-present"; VStr ".nobackup";
   VStr "--exclude"; VStr "*.tmp"; VStr "--exclude"; VStr "*.bak"; VStr "--dry-run";
   VStr "/path/testrepo::testprefix-{utcnow:%Y-%m-%dT%H:%M:%SZ}"; VStr "/home"].
Proof.
  split; [|reflexivity].
  apply (compile_create_order str_other full_config true full_remote full_location
           "/path/testrepo" (VStr "testprefix") (VStr "/home"));
    try reflexivity.
  - left; eexists; reflexivity.
  - intros k [-> | ->] v H; cbn in H; injection H as <-; eexists; reflexivity.
Defined.

Lemma compile_prune_order_witness :
  (exists rsh, compile_prune str_other test_config false =
     Ok (prune_cmd_spec str_other (VStr "testprefix") (VStr "/path/testrepo")
           test_retention false, rsh)) /\
  (forall ret', NoDup (map fst test_retention) -> Permutation test_retention ret' ->
     prune_cmd_spec str_other (VStr "testprefix") (VStr "/path/testrepo") ret' false =
     prune_cmd_spec str_other (VStr "testprefix") (VStr "/path/testrepo") test_retention false).
Proof.
  apply (compile_prune_order str_other test_config false test_remote test_retention
           (VStr "testprefix") (VStr "/path/testrepo")); reflexivity.
Defined.

Lemma create_execute_sequence_witness :
  exists cc,
  create_execute all_ok no_stdout all_ok str_other hooked_config false true =
    (map (hook_event str_other false) [VStr "true"] ++ [EvRun (fst cc) (snd cc)]
       ++ map (hook_event str_other false) [VStr "sync"], Ok tt) /\
  (forall pc, compile_prune str_other hooked_config false = Ok pc -> all_ok (fst pc) = 0%Z ->
   create_execute all_ok no_stdout all_ok str_other hooked_config false false =
    (map (hook_event str_other false) [VStr "true"] ++ [EvRun (fst cc) (snd cc)]
       ++ map (hook_event str_other false) [VStr "sync"] ++ [EvRun (fst pc) (snd pc)], Ok tt)).
Proof.
  eexists.
  apply (create_execute_sequence all_ok no_stdout all_ok str_other hooked_config false
           [VStr "true"] [VStr "sync"]); try reflexivity.
  intros _; repeat constructor.
Defined.

Lemma create_execute_hook_failure_witness :
  create_execute all_ok no_stdout false_fails str_other
    (VDict [(KStr "hooks", VDict [(KStr "before", VList [VStr "true"; VStr "false"; VStr "sync"])]);
            (KStr "location", VDict test_location); (KStr "remote", VDict test_remote)])
    false false =
  (map EvHook [VStr "true"] ++ [EvHook (VStr "false")],
   Err (CalledProcessError (false_fails (VStr "false")))).
Proof.
  apply (create_execute_hook_failure all_ok no_stdout false_fails str_other _ false
           [VStr "true"] (VStr "false") [VStr "sync"]).
  - reflexivity.
  - repeat constructor.
  - cbn; discriminate.
Defined.

Lemma evaluate_verdict_witness :
  (ten_hours_us - 0 <= 24 * 3600 * 1000000 ->
   match @None Z with None => True | Some m => m <= 5000 end ->
   evaluate ten_hours_us start_at_zero str_other (test_report (VInt 5000)) (24 * 3600) None =
     ([EvPrint ok_message], Ok tt) /\ exit_status (Ok tt) = 0)%Z /\
  ((24 * 3600) * 1000000 < ten_hours_us - 0 ->
   evaluate ten_hours_us start_at_zero str_other (test_report (VInt 5000)) (24 * 3600) None =
     ([EvPrint (too_old_message str_other (VStr "2026-10-15T02:00:00.000000"))],
      Err (SystemExit 1)) /\ exit_status (Err (SystemExit 1)) = 1)%Z /\
  (forall tr, evaluate ten_hours_us start_at_zero str_other (test_report (VInt 5000))
                (24 * 3600) None = (tr, Err (SystemExit 1)) ->
   tr <> [EvPrint (too_old_message str_other (VStr "2026-10-15T02:00:00.000000"))] ->
   ten_hours_us - 0 <= (24 * 3600) * 1000000 /\
   exists m, @None Z = Some m /\ 5000 < m /\
             tr = [EvPrint (too_small_message str_other (VInt 5000) m)])%Z.
Proof.
  apply (evaluate_verdict ten_hours_us start_at_zero str_other (test_report (VInt 5000))
           (test_archive (VInt 5000)) "2026-10-15T02:00:00.000000" 0
           (VDict [(KStr "original_size", VInt 5000)]) 5000 (24 * 3600) None);
    reflexivity.
Defined.

Lemma missing_remote_key_no_tool_witness :
  (exists e, create_execute all_ok no_stdout all_ok str_other norepo_config false false =
     (map (hook_event str_other false) [VStr "true"], Err e)) /\
  (forall ev, In ev (fst (create_execute all_ok no_stdout all_ok str_other norepo_config false false)) ->
   is_run ev = false) /\
  (exists e, snd (create_execute all_ok no_stdout all_ok str_other norepo_config false false) = Err e) /\
  (exists e, action_prune all_ok no_stdout str_other norepo_config false = ([], Err e)).
Proof.
  assert (Hk : "repository" = "repository" \/ "repository" = "prefix") by (left; reflexivity).
  assert (Hm : forall v, get2 norepo_config "remote" "repository" <> Ok v)
    by (intros v; cbn; discriminate).
  destruct (missing_remote_key_no_tool all_ok no_stdout all_ok str_other norepo_config false false
              "repository" Hk Hm) as (H1 & H2 & H3 & H4).
  split; [|split; [exact H2|split; [exact H3|exact H4]]].
  apply (H1 [VStr "true"]); [reflexivity|intros _; repeat constructor].
Defined.

Lemma compile_create_source_string_witness :
  compile_create str_other
    (with_location_source
       (VDict [(KStr "location", VDict [(KStr "source", VStr "/home")]);
               (KStr "remote", VDict test_remote)]) (VList [VStr "/home"])) false =
  compile_create str_other
    (VDict [(KStr "location", VDict [(KStr "source", VStr "/home")]);
            (KStr "remote", VDict test_remote)]) false.
Proof.
  apply (compile_create_source_string str_other _ false "/home"); reflexivity.
Defined.

Lemma config_is_true_spec_witness :
  config_is_true (VStr "Yes") = true <->
  claimed_truthy (VStr "Yes") \/
  (exists m e, VStr "Yes" = VFloat m e /\ dyadic_eqZ m e 1 = true).
Proof. apply (config_is_true_spec (VStr "Yes")). Defined.

Lemma evaluate_malformed_report_witness :
  ((forall a0, first_archive (VDict [(KStr "archives", VList [])]) <> Ok a0) ->
   exists e, evaluate ten_hours_us start_at_zero str_other
               (VDict [(KStr "archives", VList [])]) (6 * 3600) None = ([], Err e) /\
             forall c, e <> SystemExit c) /\
  (forall a0, first_archive (VDict [(KStr "archives", VList [])]) = Ok a0 ->
   (forall t, (st <-? getitem a0 "start" ;; strptime start_at_zero st) <> Ok t) ->
   exists e, evaluate ten_hours_us start_at_zero str_other
               (VDict [(KStr "archives", VList [])]) (6 * 3600) None = ([], Err e) /\
             forall c, e <> SystemExit c) /\
  (forall a0 st t, first_archive (VDict [(KStr "archives", VList [])]) = Ok a0 ->
   getitem a0 "start" = Ok st -> strptime start_at_zero st = Ok t ->
   Z.abs (6 * 3600) < 2 ^ 34 ->
   (6 * 3600) * 1000000 < ten_hours_us - t ->
   evaluate ten_hours_us start_at_zero str_other
     (VDict [(KStr "archives", VList [])]) (6 * 3600) None =
     ([EvPrint (too_old_message str_other st)], Err (SystemExit 1)))%Z.
Proof.
  apply (evaluate_malformed_report ten_hours_us start_at_zero str_other
           (VDict [(KStr "archives", VList [])]) (6 * 3600) None).
Defined.

Lemma missing_source_or_retention_witness :
  ((dict_get [(KStr "remote", VDict test_remote)] (KStr "location") = None \/
    exists loc, dict_get [(KStr "remote", VDict test_remote)] (KStr "location") = Some (VDict loc) /\
                dict_get loc (KStr "source") = None) ->
   exists k, action_create all_ok no_stdout str_other
               (VDict [(KStr "remote", VDict test_remote)]) false = ([], Err (KeyError k))) /\
  (forall rm, dict_get [(KStr "remote", VDict test_remote)] (KStr "remote") = Some (VDict rm) ->
   dict_get [(KStr "remote", VDict test_remote)] (KStr "retention") = None ->
   exists k, action_prune all_ok no_stdout str_other
               (VDict [(KStr "remote", VDict test_remote)]) false = ([], Err (KeyError k))) /\
  (forall rm ret prefix repository,
   dict_get [(KStr "remote", VDict test_remote)] (KStr "remote") = Some (VDict rm) ->
   dict_get rm (KStr "prefix") = Some prefix ->
   dict_get rm (KStr "repository") = Some repository ->
   dict_get [(KStr "remote", VDict test_remote)] (KStr "retention") = Some (VDict ret) ->
   exists c, compile_prune str_other (VDict [(KStr "remote", VDict test_remote)]) false = Ok c).
Proof.
  apply (missing_source_or_retention all_ok no_stdout str_other
           [(KStr "remote", VDict test_remote)] false).
Defined.

(** C3 (counterexample).  Under --dry-run the before-hook [true] of
    [hooked_config] is never run: the create action only reports it. *)
Lemma create_execute_dry_run_skips_hooks :
  hook_list "before" hooked_config = Ok [VStr "true"] /\
  ~ In (EvHook (VStr "true"))
      (fst (create_execute all_ok no_stdout all_ok str_other hooked_config true false)).
Proof.
  split; [reflexivity|].
  vm_compute; intros H; repeat (destruct H as [H|H]; [discriminate|]); exact H.
Qed.

(** C5 (counterexample).  With [max_age] = 17179869600 seconds (just
    above 2^34) and a backup started max_age seconds and one microsecond
    ago, [total_seconds()] rounds the age to the double 17179869600.0, which
    is not greater than [max_age]: the verdict is OK although the elapsed
    time strictly exceeds [max_age]. *)
Lemma evaluate_age_rounding :
  (17179869600 * 1000000 < 17179869600000001 - 0 /\
   total_seconds 17179869600000001 = (4503599736422400, -18) /\
   evaluate 17179869600000001 start_at_zero str_other (test_report (VInt 5000))
     17179869600 None = ([EvPrint ok_message], Ok tt))%Z.
Proof. split; [lia|]; vm_compute; split; reflexivity. Qed.

(** A list repository: [repo += ...] in the create call extends the list of
    the configuration itself, so the prune command that follows carries the
    extended list, character by character. *)
Example test_list_repository_prune :
  last (fst (create_execute all_ok no_stdout all_ok str_other listrepo_config false false))
       (EvPrint EmptyString) =
  EvRun [VStr "borgbackup"; VStr "prune"; VStr "--stats"; VStr "--list";
         VStr "--prefix"; VStr "p"; VStr "--keep-last"; VStr "3";
         VList (VStr "/r" :: map char_value
                  (list_ascii_of_string "::p-{utcnow:%Y-%m-%dT%H:%M:%SZ}"))] None.
Proof. vm_compute; reflexivity. Qed.

(** C7 (counterexample).  Without remote.repository the create action
    first runs the before-hook [true], and then fails with a KeyError. *)
Lemma missing_repository_after_hook :
  create_execute all_ok no_stdout all_ok str_other norepo_config false false =
  ([EvHook (VStr "true")], Err (KeyError (KStr "repository"))).
Proof. vm_compute; reflexivity. Qed.

(** C8 (counterexample).  A report whose archive has no stats, started ten
    hours ago, gives the WARN_TOO_OLD verdict under a six-hour limit; a
    recent one whose original_size is a string gives OK without a size
    limit. *)
Lemma malformed_report_verdicts :
  getitem (VDict [(KStr "start", VStr "2026-10-15T02:00:00.000000")]) "stats"
    = Err (KeyError (KStr "stats")) /\
  evaluate ten_hours_us start_at_zero str_other nostats_report (6 * 3600) None =
    ([EvPrint (too_old_message str_other (VStr "2026-10-15T02:00:00.000000"))],
     Err (SystemExit 1)) /\
  evaluate ten_hours_us start_at_zero str_other (test_report (VStr "big")) (24 * 3600) None =
    ([EvPrint ok_message], Ok tt).
Proof. vm_compute; repeat split. Qed.

(** ** The repository's own test scenarios (borgwrap_test.py) *)

Example test_create_with_prune :
  create_execute all_ok no_stdout all_ok str_other test_config false false =
  ([EvRun [VStr "borgbackup"; VStr "create";
           VStr "/path/testrepo::testprefix-{utcnow:%Y-%m-%dT%H:%M:%SZ}";
           VStr "source1"; VStr "source2"] None;
    EvRun [VStr "borgbackup"; VStr "prune"; VStr "--stats"; VStr "--list";
           VStr "--prefix"; VStr "testprefix"; VStr "--keep-last"; VStr "3";
           VStr "--keep-daily"; VStr "7"; VStr "/path/testrepo"] None], Ok tt).
Proof. vm_compute; reflexivity. Qed.

Example test_create_without_prune :
  create_execute all_ok no_stdout all_ok str_other test_config false true =
  ([EvRun [VStr "borgbackup"; VStr "create";
           VStr "/path/testrepo::testprefix-{utcnow:%Y-%m-%dT%H:%M:%SZ}";
           VStr "source1"; VStr "source2"] None], Ok tt).
Proof. vm_compute; reflexivity. Qed.

Example test_list :
  action_list all_ok no_stdout str_other test_config =
  ([EvRun [VStr "borgbackup"; VStr "list"; VStr "/path/testrepo"] None], Ok tt).
Proof. vm_compute; reflexivity. Qed.

(** ** Further properties of the wrapper *)

Section Borgwrap_more.

Variable tool_status : list Value -> Z.
Variable tool_stdout : list Value -> option Value.
Variable hook_status : Value -> Z.
Variable now_us : Z.
Variable strptime_us : string -> option Z.
Variable py_str_other : Value -> string.

Local Open Scope Z_scope.

Lemma rbind_ok {A B} (r : Res A) (f : A -> Res B) x :
  rbind r f = Ok x -> exists a, r = Ok a /\ f a = Ok x.
Proof. destruct r as [a|e]; cbn [rbind]; [eauto|discriminate]. Qed.

Lemma run_cmds_plain_eq action config rm repository args :
  getitem config "remote" = Ok (VDict rm) ->
  dict_get rm (KStr "repository") = Some repository ->
  run_cmds py_str_other action config false args (VList []) =
  Ok ([VStr "borgbackup"; VStr action] ++ args ++ [repository], dict_get rm (KStr "rsh")).
Proof.
  intros Hr Hrepo; unfold run_cmds.
  rewrite (get2_dict _ _ _ _ Hr), Hrepo; cbn [rbind].
  rewrite (in2_dict _ _ _ _ Hr).
  destruct (dict_get rm (KStr "rsh")) eqn:E; cbn [rbind].
  - rewrite (get2_dict _ _ _ _ Hr), E; cbn; rewrite ?app_nil_r; reflexivity.
  - cbn; rewrite ?app_nil_r; reflexivity.
Qed.

Lemma action_check_age_unfold config rm repository max_age min_size :
  getitem config "remote" = Ok (VDict rm) ->
  dict_get rm (KStr "repository") = Some repository ->
  action_check_age tool_status tool_stdout now_us strptime_us py_str_other
    config max_age min_size =
  if Z.eqb (tool_status [VStr "borgbackup"; VStr "info"; VStr "--last"; VStr "1"; VStr "--json"; repository]) 0 then
    match tool_stdout [VStr "borgbackup"; VStr "info"; VStr "--last"; VStr "1"; VStr "--json"; repository] with
    | Some report =>
        (EvRun [VStr "borgbackup"; VStr "info"; VStr "--last"; VStr "1"; VStr "--json"; repository] (dict_get rm (KStr "rsh"))
           :: fst (evaluate now_us strptime_us py_str_other report max_age min_size),
         snd (evaluate now_us strptime_us py_str_other report max_age min_size))
    | None => ([EvRun [VStr "borgbackup"; VStr "info"; VStr "--last"; VStr "1"; VStr "--json"; repository] (dict_get rm (KStr "rsh"))], Err YAMLError)
    end
  else ([EvRun [VStr "borgbackup"; VStr "info"; VStr "--last"; VStr "1"; VStr "--json"; repository] (dict_get rm (KStr "rsh"))],
        Err (CalledProcessError (tool_status [VStr "borgbackup"; VStr "info"; VStr "--last"; VStr "1"; VStr "--json"; repository]))).
Proof.
  intros Hr Hrepo.
  unfold action_check_age, run, lift.
  rewrite (run_cmds_plain_eq _ _ _ _ _ Hr Hrepo), bind_nil_ok.
  unfold invoke; cbn [fst snd app].
  match goal with |- context [Z.eqb (tool_status ?c) 0] =>
    destruct (Z.eqb (tool_status c) 0) end.
  - rewrite bind_ok_trace; cbn [fst snd app].
    match goal with |- context [tool_stdout ?c] => destruct (tool_stdout c) end;
      cbn [yaml_load]; rewrite ?bind_nil_ok; reflexivity.
  - reflexivity.
Qed.

(** X1.  The runner gets the BORG_RSH override exactly when the remote
    section has an rsh key, with its value, whatever the action. *)
Theorem run_cmds_rsh action config archive args trailing rm cmds rsh :
  getitem config "remote" = Ok (VDict rm) ->
  run_cmds py_str_other action config archive args trailing = Ok (cmds, rsh) ->
  rsh = dict_get rm (KStr "rsh").
Proof.
  intros Hr H; unfold run_cmds in H.
  apply rbind_ok in H as [repo0 [_ H]].
  apply rbind_ok in H as [repo [_ H]].
  apply rbind_ok in H as [has_rsh [Hin H]].
  apply rbind_ok in H as [o [Ho H]].
  apply rbind_ok in H as [tl [_ H]].
  injection H as _ <-.
  rewrite (in2_dict _ _ _ _ Hr) in Hin; injection Hin as <-.
  rewrite (get2_dict _ _ _ _ Hr) in Ho.
  destruct (dict_get rm (KStr "rsh")); cbn [rbind] in Ho; injection Ho as <-; reflexivity.
Qed.


(** X2.  [action_list] runs [borgbackup list <repository>] once, with the
    BORG_RSH override of the remote section, and fails exactly when the tool
    does; without a repository key it raises before running anything. *)
Theorem action_list_command config rm :
  getitem config "remote" = Ok (VDict rm) ->
  action_list tool_status tool_stdout py_str_other config =
  match dict_get rm (KStr "repository") with
  | Some repository =>
      ([EvRun [VStr "borgbackup"; VStr "list"; repository] (dict_get rm (KStr "rsh"))],
       if Z.eqb (tool_status [VStr "borgbackup"; VStr "list"; repository]) 0 then Ok tt
       else Err (CalledProcessError (tool_status [VStr "borgbackup"; VStr "list"; repository])))
  | None => ([], Err (KeyError (KStr "repository")))
  end.
Proof.
  intros Hr.
  destruct (dict_get rm (KStr "repository")) as [repository|] eqn:Hrepo.
  - unfold action_list, run, lift.
    rewrite (run_cmds_plain_eq _ _ _ _ _ Hr Hrepo), bind_nil_ok.
    unfold invoke; cbn [fst snd app].
    match goal with |- context [Z.eqb (tool_status ?c) 0] =>
      destruct (Z.eqb (tool_status c) 0) end; reflexivity.
  - unfold action_list, run, lift, run_cmds.
    rewrite (get2_dict _ _ _ _ Hr), Hrepo; reflexivity.
Qed.

(** X3.  The age check runs [borgbackup info --last 1 --json <repository>]
    once.  If the tool fails, or its output does not parse, the check ends
    in that exception with nothing printed; otherwise what follows is the
    verdict on the parsed report. *)
Theorem action_check_age_steps config rm repository max_age min_size :
  getitem config "remote" = Ok (VDict rm) ->
  dict_get rm (KStr "repository") = Some repository ->
  action_check_age tool_status tool_stdout now_us strptime_us py_str_other
    config max_age min_size =
  if Z.eqb (tool_status [VStr "borgbackup"; VStr "info"; VStr "--last"; VStr "1"; VStr "--json"; repository]) 0 then
    match tool_stdout [VStr "borgbackup"; VStr "info"; VStr "--last"; VStr "1"; VStr "--json"; repository] with
    | Some report =>
        (EvRun [VStr "borgbackup"; VStr "info"; VStr "--last"; VStr "1"; VStr "--json"; repository] (dict_get rm (KStr "rsh"))
           :: fst (evaluate now_us strptime_us py_str_other report max_age min_size),
         snd (evaluate now_us strptime_us py_str_other report max_age min_size))
    | None => ([EvRun [VStr "borgbackup"; VStr "info"; VStr "--last"; VStr "1"; VStr "--json"; repository] (dict_get rm (KStr "rsh"))], Err YAMLError)
    end
  else ([EvRun [VStr "borgbackup"; VStr "info"; VStr "--last"; VStr "1"; VStr "--json"; repository] (dict_get rm (KStr "rsh"))],
        Err (CalledProcessError (tool_status [VStr "borgbackup"; VStr "info"; VStr "--last"; VStr "1"; VStr "--json"; repository]))).
Proof.
  intros Hr Hrepo.
  unfold action_check_age, run, lift.
  rewrite (run_cmds_plain_eq _ _ _ _ _ Hr Hrepo), bind_nil_ok.
  unfold invoke; cbn [fst snd app].
  match goal with |- context [Z.eqb (tool_status ?c) 0] =>
    destruct (Z.eqb (tool_status c) 0) end.
  - rewrite bind_ok_trace; cbn [fst snd app].
    match goal with |- context [tool_stdout ?c] => destruct (tool_stdout c) end;
      cbn [yaml_load]; rewrite ?bind_nil_ok; reflexivity.
  - reflexivity.
Qed.

(** X4.  [nagios-check-age --max-age H --min-size M]: on a well-formed
    report the check fails when the backup started more than H hours ago,
    else when M is given and nonzero and the size is below M MiB; a
    [--min-size] of 0 or none disables the size check.  H is taken below
    2^34 seconds in absolute value (about 544 years), where the code's
    floating-point comparison of the age is exact. *)
Theorem check_age_execute_verdict config rm repository max_age_h min_size_mib
    report a0 start t stats size :
  getitem config "remote" = Ok (VDict rm) ->
  dict_get rm (KStr "repository") = Some repository ->
  tool_status [VStr "borgbackup"; VStr "info"; VStr "--last"; VStr "1"; VStr "--json"; repository] = 0 ->
  tool_stdout [VStr "borgbackup"; VStr "info"; VStr "--last"; VStr "1"; VStr "--json"; repository] = Some report ->
  first_archive report = Ok a0 ->
  getitem a0 "start" = Ok (VStr start) ->
  strptime_us start = Some t ->
  getitem a0 "stats" = Ok stats ->
  getitem stats "original_size" = Ok (VInt size) ->
  Z.abs (max_age_h * 3600) < 2 ^ 34 ->
  snd (check_age_execute tool_status tool_stdout now_us strptime_us py_str_other
         config max_age_h min_size_mib) =
  if Z.ltb (max_age_h * 3600 * 1000000) (now_us - t) then Err (SystemExit 1)
  else match min_size_mib with
       | Some m => if negb (Z.eqb m 0) && Z.ltb size (m * 1048576)
                   then Err (SystemExit 1) else Ok tt
       | None => Ok tt
       end.
Proof.
  intros Hr Hrepo Hst Hout Ha Hs Ht Hsts Hsz Hb.
  unfold check_age_execute.
  rewrite (action_check_age_unfold _ _ _ _ _ Hr Hrepo), Hst, Hout; cbn [Z.eqb snd].
  assert (Hp : strptime strptime_us (VStr start) = Ok t) by (cbn; rewrite Ht; reflexivity).
  rewrite (evaluate_unfold now_us strptime_us py_str_other report a0 (VStr start) t
             _ _ Ha Hs Hp).
  rewrite (total_seconds_exact (now_us - t) (max_age_h * 3600) Hb).
  destruct (Z.ltb (max_age_h * 3600 * 1000000) (now_us - t)); [reflexivity|].
  rewrite Hsts; cbn [rbind]; rewrite Hsz; unfold lift; rewrite bind_nil_ok.
  destruct min_size_mib as [m|]; [|reflexivity].
  destruct (Z.eqb m 0) eqn:Em; cbn [negb andb]; [reflexivity|].
  cbn [opt_truthy].
  replace (m * 1024 * 1024) with (m * 1048576) by lia.
  assert (Hm : Z.eqb (m * 1048576) 0 = false) by (apply Z.eqb_neq; apply Z.eqb_neq in Em; lia).
  rewrite Hm; cbn [negb py_lt_int]; rewrite bind_nil_ok.
  destruct (Z.ltb size (m * 1048576)); reflexivity.
Qed.

(** X5.  With dry-run on, the hook runner never executes a hook and cannot
    fail because of one: each listed hook is only reported, in order. *)
Theorem hooks_dry_run_skip which config :
  hooks_of hook_status py_str_other which config true =
  match hook_list which config with
  | Ok hs => (map (fun h => EvPrint (skip_message py_str_other h)) hs, Ok tt)
  | Err e => ([], Err e)
  end.
Proof.
  rewrite hooks_of_list; destruct (hook_list which config) as [hs|e]; [|reflexivity].
  rewrite (run_hooks_ok hook_status py_str_other true hs); [reflexivity|discriminate].
Qed.

(** X6.  A policy without a hooks section, or whose hooks section lacks the
    phase, runs no hook and prints nothing for that phase. *)
Theorem hooks_absent which d dry_run :
  (dict_get d (KStr "hooks") = None \/
   exists hd, dict_get d (KStr "hooks") = Some (VDict hd) /\ dict_get hd (KStr which) = None) ->
  hooks_of hook_status py_str_other which (VDict d) dry_run = ([], Ok tt).
Proof.
  intros H; rewrite hooks_of_list; unfold hook_list; cbn [contains].
  rewrite existsb_keys.
  destruct H as [H|[hd [H Hw]]]; rewrite H; cbn [negb rbind]; [reflexivity|].
  unfold in2; cbn [getitem]; rewrite H; cbn [rbind contains].
  rewrite existsb_keys, Hw; reflexivity.
Qed.

(** X7.  A hook phase given as a single string, not a list, is iterated by
    character: each character is run (or reported) as a hook of its own. *)
Theorem hooks_string_by_character which config s dry_run :
  get2 config "hooks" which = Ok (VStr s) ->
  hooks_of hook_status py_str_other which config dry_run =
  run_hooks hook_status py_str_other dry_run (map char_value (list_ascii_of_string s)).
Proof.
  intros H; rewrite hooks_of_list; unfold hook_list.
  unfold get2 in H.
  destruct config as [| | | | | |d]; cbn [getitem rbind] in H; try discriminate H.
  destruct (dict_get d (KStr "hooks")) as [hv|] eqn:Ed; cbn [rbind] in H; [|discriminate H].
  destruct hv as [| | | | | |hd]; cbn [getitem] in H; try discriminate H.
  cbn [contains]; rewrite existsb_keys, Ed; cbn [negb rbind].
  unfold in2, get2; cbn [getitem]; rewrite Ed; cbn [rbind contains getitem].
  rewrite existsb_keys.
  destruct (dict_get hd (KStr which)) as [v|]; [|discriminate H].
  injection H as ->; reflexivity.
Qed.

(** X8.  The dry-run create flags are the normal ones followed by
    [--dry-run]: the flag changes nothing else, and the errors are the same. *)
Theorem create_args_dry_run config :
  create_args config true =
  match create_args config false with
  | Ok (a, src) => Ok (a ++ [VStr "--dry-run"], src)
  | Err e => Err e
  end.
Proof.
  unfold create_args.
  destruct (get2 config "location" "source"); cbn [rbind]; [|reflexivity].
  repeat match goal with |- context [rbind ?r _] =>
    destruct r; cbn [rbind]; [|reflexivity] end.
  rewrite ?app_nil_r, <- ?app_assoc; reflexivity.
Qed.

(** X9.  The dry-run prune flags are the normal ones with [--dry-run]
    inserted after [--stats --list --prefix <prefix>]; the errors are the
    same. *)
Theorem prune_args_dry_run config :
  prune_args py_str_other config true =
  match prune_args py_str_other config false with
  | Ok a => Ok (firstn 4 a ++ VStr "--dry-run" :: skipn 4 a)
  | Err e => Err e
  end.
Proof.
  unfold prune_args.
  repeat match goal with |- context [rbind ?r _] =>
    destruct r; cbn [rbind]; [|reflexivity] end.
  reflexivity.
Qed.

(** X10.  When the create invocation fails, the create action stops there:
    the before-hooks and the create command have run, and neither the
    after-hooks nor prune run. *)
Theorem create_execute_create_failure config dry_run no_prune bs cc :
  hook_list "before" config = Ok bs ->
  (dry_run = false -> Forall (fun h => hook_status h = 0) bs) ->
  compile_create py_str_other config dry_run = Ok cc ->
  tool_status (fst cc) <> 0 ->
  create_execute tool_status tool_stdout hook_status py_str_other config dry_run no_prune =
  (map (hook_event py_str_other dry_run) bs ++ [EvRun (fst cc) (snd cc)],
   Err (CalledProcessError (tool_status (fst cc)))).
Proof.
  intros Hb Hh Hc Hs.
  unfold create_execute, hooks_before.
  rewrite hooks_of_list, Hb, (run_hooks_ok hook_status py_str_other dry_run bs Hh).
  rewrite bind_ok_trace, action_create_compiled, Hc.
  rewrite (proj2 (Z.eqb_neq _ _) Hs); reflexivity.
Qed.

(** X11.  When an after-hook fails (dry-run off), the backup has already
    been created, the later after-hooks do not run and prune does not run. *)
Theorem create_execute_after_hook_failure config no_prune bs pre h post cc :
  hook_list "before" config = Ok bs ->
  Forall (fun h' => hook_status h' = 0) bs ->
  compile_create py_str_other config false = Ok cc ->
  tool_status (fst cc) = 0 ->
  hook_list "after" config = Ok (pre ++ h :: post) ->
  Forall (fun h' => hook_status h' = 0) pre ->
  hook_status h <> 0 ->
  create_execute tool_status tool_stdout hook_status py_str_other config false no_prune =
  (map EvHook bs ++ [EvRun (fst cc) (snd cc)] ++ map EvHook pre ++ [EvHook h],
   Err (CalledProcessError (hook_status h))).
Proof.
  intros Hb Hbs Hc Hcs Ha Hpre Hh.
  unfold create_execute, hooks_before, hooks_after.
  rewrite hooks_of_list, Hb, (run_hooks_ok hook_status py_str_other false bs (fun _ => Hbs)).
  rewrite bind_ok_trace, action_create_compiled, Hc, Hcs; cbn [Z.eqb].
  rewrite bind_ok_trace; cbv beta.
  rewrite hooks_of_list, run_effect_hook_list, Ha,
    (run_hooks_fail hook_status py_str_other pre h post Hpre Hh).
  reflexivity.
Qed.

(** X12.  Without a retention section, [create] (without [--no-prune])
    still runs the before-hooks, creates the backup and runs the
    after-hooks, and only then raises [KeyError] on the retention key. *)
Theorem create_execute_missing_retention config dry_run bs afs cc rm prefix :
  hook_list "before" config = Ok bs ->
  hook_list "after" config = Ok afs ->
  (dry_run = false -> Forall (fun h => hook_status h = 0) (bs ++ afs)) ->
  compile_create py_str_other config dry_run = Ok cc ->
  tool_status (fst cc) = 0 ->
  getitem config "remote" = Ok (VDict rm) ->
  dict_get rm (KStr "prefix") = Some prefix ->
  getitem config "retention" = Err (KeyError (KStr "retention")) ->
  create_execute tool_status tool_stdout hook_status py_str_other config dry_run false =
  (map (hook_event py_str_other dry_run) bs ++ [EvRun (fst cc) (snd cc)]
     ++ map (hook_event py_str_other dry_run) afs,
   Err (KeyError (KStr "retention"))).
Proof.
  intros Hb Ha Hh Hc Hcs Hr Hp Hret.
  assert (Hbr : hooks_before hook_status py_str_other config dry_run =
                (map (hook_event py_str_other dry_run) bs, Ok tt)).
  { unfold hooks_before; rewrite hooks_of_list, Hb; apply run_hooks_ok.
    intros Hd; apply (Forall_app _ bs afs); auto. }
  assert (Har : hooks_after hook_status py_str_other (run_effect py_str_other config true) dry_run =
                (map (hook_event py_str_other dry_run) afs, Ok tt)).
  { unfold hooks_after; rewrite hooks_of_list, run_effect_hook_list, Ha; apply run_hooks_ok.
    intros Hd; apply (Forall_app _ bs afs); auto. }
  assert (Hpr : compile_prune py_str_other (run_effect py_str_other config true) dry_run =
                Err (KeyError (KStr "retention"))).
  { unfold compile_prune; rewrite run_effect_prune_args; unfold prune_args.
    rewrite (get2_dict _ _ _ _ Hr), Hp; cbn [rbind].
    unfold keep_flag, in2; rewrite Hret; reflexivity. }
  unfold create_execute; rewrite Hbr, bind_ok_trace, action_create_compiled, Hc, Hcs.
  cbn [Z.eqb fst snd]; rewrite bind_ok_trace; cbv beta.
  rewrite Har, bind_ok_trace; cbn [fst snd negb].
  rewrite action_prune_compiled, Hpr; cbn [fst snd].
  rewrite <- ?app_assoc, ?app_nil_r; reflexivity.
Qed.

(** X13.  A source that is neither a string nor a list (a number, a
    mapping, a boolean, null) makes the create action raise [TypeError]
    before any tool runs. *)
Theorem action_create_bad_source config dry_run rm loc repository prefix source :
  getitem config "remote" = Ok (VDict rm) ->
  getitem config "location" = Ok (VDict loc) ->
  dict_get rm (KStr "repository") = Some (VStr repository) ->
  dict_get rm (KStr "prefix") = Some prefix ->
  dict_get loc (KStr "source") = Some source ->
  (forall k, k = "exclude" \/ k = "exclude_if_present" ->
     forall v, dict_get loc (KStr k) = Some v -> exists l, v = VList l) ->
  (forall s, source <> VStr s) ->
  (forall l, source <> VList l) ->
  action_create tool_status tool_stdout py_str_other config dry_run = ([], Err TypeError).
Proof.
  intros Hr Hl Hrepo Hp Hsrc Hexc Hs Hlst.
  rewrite action_create_compiled; unfold compile_create.
  rewrite (create_args_dict config dry_run rm loc source Hr Hl Hsrc Hexc); cbn [rbind fst snd].
  assert (Hsr : match source with VStr _ => VList [source] | _ => source end = source).
  { destruct source; try reflexivity; exfalso; eapply Hs; reflexivity. }
  rewrite Hsr; unfold run_cmds.
  rewrite !(get2_dict _ _ _ _ Hr), Hrepo, Hp, (in2_dict _ _ _ _ Hr); cbn [rbind iadd_str].
  destruct (dict_get rm (KStr "rsh")); cbn [rbind];
  (destruct source; [| | | | |exfalso; eapply Hlst; reflexivity|]; try reflexivity;
   exfalso; eapply Hs; reflexivity).
Qed.

(** X14.  An exclude entry given as a single string, not a list, is
    iterated by character: one [--exclude] flag per character.  The other
    flags are as usual; the exclude_if_present entry, of whatever shape, is
    iterated the same way ([py_iter]) before the exclude entry is read. *)
Theorem create_args_exclude_string config dry_run rm loc source s :
  getitem config "remote" = Ok (VDict rm) ->
  getitem config "location" = Ok (VDict loc) ->
  dict_get loc (KStr "source") = Some source ->
  dict_get loc (KStr "exclude") = Some (VStr s) ->
  create_args config dry_run =
  (eips <-? match dict_get loc (KStr "exclude_if_present") with
            | Some v => py_iter v
            | None => Ok []
            end ;;
   Ok (opt_pair "--compression" (dict_get rm (KStr "compression"))
       ++ opt_switch "--one-file-system" (dict_get loc (KStr "one_file_system"))
       ++ opt_switch "--exclude-caches" (dict_get loc (KStr "exclude_caches"))
       ++ flat_map (fun e => [VStr "--exclude-if-present"; e]) eips
       ++ flat_map (fun e => [VStr "--exclude"; e]) (map char_value (list_ascii_of_string s))
       ++ (if dry_run then [VStr "--dry-run"] else []),
       match source with VStr _ => VList [source] | _ => source end)).
Proof.
  intros Hr Hl Hsrc Hex.
  unfold create_args.
  rewrite (get2_dict _ _ _ _ Hl), Hsrc; cbn [rbind].
  rewrite !(in2_dict _ _ _ _ Hr), !(in2_dict _ _ _ _ Hl).
  rewrite !(get2_dict _ _ _ _ Hr), !(get2_dict _ _ _ _ Hl), Hex.
  destruct (dict_get loc (KStr "exclude_if_present")) as [v|]; cbn [rbind];
    [destruct (py_iter v) as [es|e]|];
  destruct (dict_get rm (KStr "compression"));
  destruct (dict_get loc (KStr "one_file_system"));
  destruct (dict_get loc (KStr "exclude_caches"));
  reflexivity.
Qed.

(** X15.  The actions read only their own sections: prune only remote and
    retention, create only remote and location, list and the age check only
    remote; two policies that agree on those sections give the same result. *)
Theorem actions_read_sections config config' dry_run max_age min_size :
  getitem config "remote" = getitem config' "remote" ->
  (getitem config "retention" = getitem config' "retention" ->
   compile_prune py_str_other config dry_run = compile_prune py_str_other config' dry_run) /\
  (getitem config "location" = getitem config' "location" ->
   compile_create py_str_other config dry_run = compile_create py_str_other config' dry_run) /\
  action_list tool_status tool_stdout py_str_other config =
    action_list tool_status tool_stdout py_str_other config' /\
  action_check_age tool_status tool_stdout now_us strptime_us py_str_other
    config max_age min_size =
    action_check_age tool_status tool_stdout now_us strptime_us py_str_other
      config' max_age min_size.
Proof.
  intros Hr.
  assert (Hrun : forall action archive args trailing,
             run_cmds py_str_other action config archive args trailing =
             run_cmds py_str_other action config' archive args trailing).
  { intros; unfold run_cmds, get2, in2; rewrite Hr; reflexivity. }
  split; [|split; [|split]].
  - intros Hret.
    assert (Hp : prune_args py_str_other config dry_run = prune_args py_str_other config' dry_run).
    { unfold prune_args, keep_flag, get2, in2; rewrite Hr, Hret; reflexivity. }
    unfold compile_prune; rewrite Hp.
    destruct (prune_args py_str_other config' dry_run); cbn [rbind]; [apply Hrun|reflexivity].
  - intros Hl.
    assert (Hc : create_args config dry_run = create_args config' dry_run).
    { unfold create_args, get2, in2; rewrite Hr, Hl; reflexivity. }
    unfold compile_create; rewrite Hc.
    destruct (create_args config' dry_run); cbn [rbind]; [apply Hrun|reflexivity].
  - unfold action_list, run; rewrite Hrun; reflexivity.
  - unfold action_check_age, run; rewrite Hrun; reflexivity.
Qed.

End Borgwrap_more.

Lemma run_cmds_rsh_witness :
  Some (VStr "ssh -p 2222") = dict_get rsh_remote (KStr "rsh").
Proof.
  apply (run_cmds_rsh str_other "list" rsh_config false [] (VList []) rsh_remote
           [VStr "borgbackup"; VStr "list"; VStr "/path/testrepo"]); reflexivity.
Defined.

Lemma action_list_command_witness :
  action_list tool_fails no_stdout str_other rsh_config =
  ([EvRun [VStr "borgbackup"; VStr "list"; VStr "/path/testrepo"] (Some (VStr "ssh -p 2222"))],
   Err (CalledProcessError 2)).
Proof.
  rewrite (action_list_command tool_fails no_stdout str_other rsh_config rsh_remote eq_refl).
  reflexivity.
Defined.

Lemma action_check_age_steps_witness :
  action_check_age tool_fails report_stdout ten_hours_us start_at_zero str_other
    test_config (24 * 3600) None =
  ([EvRun [VStr "borgbackup"; VStr "info"; VStr "--last"; VStr "1"; VStr "--json";
           VStr "/path/testrepo"] None],
   Err (CalledProcessError 2)).
Proof.
  rewrite (action_check_age_steps tool_fails report_stdout ten_hours_us start_at_zero str_other
             test_config test_remote (VStr "/path/testrepo") (24 * 3600) None eq_refl eq_refl).
  reflexivity.
Defined.

Lemma check_age_execute_verdict_witness :
  snd (check_age_execute all_ok report_stdout ten_hours_us start_at_zero str_other
         test_config 24 (Some 1%Z)) = Err (SystemExit 1).
Proof.
  rewrite (check_age_execute_verdict all_ok report_stdout ten_hours_us start_at_zero str_other
             test_config test_remote (VStr "/path/testrepo") 24 (Some 1%Z)
             (test_report (VInt 5000)) (test_archive (VInt 5000))
             "2026-10-15T02:00:00.000000" 0 (VDict [(KStr "original_size", VInt 5000)]) 5000);
    reflexivity.
Defined.

Lemma hooks_absent_witness :
  hooks_of all_ok str_other "before" test_config false = ([], Ok tt).
Proof.
  unfold test_config; apply hooks_absent; left; reflexivity.
Defined.

Lemma hooks_string_by_character_witness :
  hooks_of all_ok str_other "before"
    (VDict [(KStr "hooks", VDict [(KStr "before", VStr "ls")])]) false =
  ([EvHook (VStr "l"); EvHook (VStr "s")], Ok tt).
Proof.
  rewrite (hooks_string_by_character all_ok str_other "before"
             (VDict [(KStr "hooks", VDict [(KStr "before", VStr "ls")])]) "ls" false eq_refl).
  reflexivity.
Defined.

Lemma create_execute_create_failure_witness :
  create_execute tool_fails no_stdout all_ok str_other hooked_config false false =
  ([EvHook (VStr "true"); EvRun test_create_cmds None], Err (CalledProcessError 2)).
Proof.
  rewrite (create_execute_create_failure tool_fails no_stdout all_ok str_other hooked_config
             false false [VStr "true"] (test_create_cmds, None)).
  - reflexivity.
  - reflexivity.
  - intros _; repeat constructor.
  - reflexivity.
  - cbv; discriminate.
Defined.

Lemma create_execute_after_hook_failure_witness :
  create_execute all_ok no_stdout false_fails str_other
    (VDict [(KStr "hooks", VDict [(KStr "before", VList [VStr "true"]);
                                  (KStr "after", VList [VStr "sync"; VStr "false"; VStr "echo"])]);
            (KStr "location", VDict test_location); (KStr "remote", VDict test_remote);
            (KStr "retention", VDict test_retention)])
    false false =
  ([EvHook (VStr "true"); EvRun test_create_cmds None; EvHook (VStr "sync");
    EvHook (VStr "false")], Err (CalledProcessError 1)).
Proof.
  rewrite (create_execute_after_hook_failure all_ok no_stdout false_fails str_other _ false
             [VStr "true"] [VStr "sync"] (VStr "false") [VStr "echo"] (test_create_cmds, None)).
  - reflexivity.
  - reflexivity.
  - repeat constructor.
  - reflexivity.
  - reflexivity.
  - reflexivity.
  - repeat constructor.
  - cbv; discriminate.
Defined.

Lemma create_execute_missing_retention_witness :
  create_execute all_ok no_stdout all_ok str_other
    (VDict [(KStr "hooks", test_hooks); (KStr "location", VDict test_location);
            (KStr "remote", VDict test_remote)])
    false false =
  ([EvHook (VStr "true"); EvRun test_create_cmds None; EvHook (VStr "sync")],
   Err (KeyError (KStr "retention"))).
Proof.
  rewrite (create_execute_missing_retention all_ok no_stdout all_ok str_other _ false
             [VStr "true"] [VStr "sync"] (test_create_cmds, None) test_remote
             (VStr "testprefix")).
  - reflexivity.
  - reflexivity.
  - reflexivity.
  - intros _; repeat constructor.
  - reflexivity.
  - reflexivity.
  - reflexivity.
  - reflexivity.
  - reflexivity.
Defined.

Lemma action_create_bad_source_witness :
  action_create all_ok no_stdout str_other
    (VDict [(KStr "location", VDict [(KStr "source", VInt 5)]);
            (KStr "remote", VDict test_remote)]) false = ([], Err TypeError).
Proof.
  apply (action_create_bad_source all_ok no_stdout str_other _ false test_remote
           [(KStr "source", VInt 5)] "/path/testrepo" (VStr "testprefix") (VInt 5));
    try reflexivity; try discriminate.
  intros k [-> | ->] v H; discriminate H.
Defined.

Lemma create_args_exclude_string_witness :
  create_args
    (VDict [(KStr "location", VDict [(KStr "source", VStr "/home"); (KStr "exclude", VStr "*~");
                                     (KStr "exclude_if_present", VList [VStr ".nobackup"])]);
            (KStr "remote", VDict test_remote)]) false =
  Ok ([VStr "--exclude-if-present"; VStr ".nobackup"; VStr "--exclude"; VStr "*";
       VStr "--exclude"; VStr "~"], VList [VStr "/home"]).
Proof.
  rewrite (create_args_exclude_string _ false test_remote
             [(KStr "source", VStr "/home"); (KStr "exclude", VStr "*~");
              (KStr "exclude_if_present", VList [VStr ".nobackup"])] (VStr "/home") "*~");
    reflexivity.
Defined.

Lemma actions_read_sections_witness :
  (getitem test_config "retention" = getitem hooked_config "retention" ->
   compile_prune str_other test_config true = compile_prune str_other hooked_config true) /\
  (getitem test_config "location" = getitem hooked_config "location" ->
   compile_create str_other test_config true = compile_create str_other hooked_config true) /\
  action_list all_ok report_stdout str_other test_config =
    action_list all_ok report_stdout str_other hooked_config /\
  action_check_age all_ok report_stdout ten_hours_us start_at_zero str_other
    test_config (24 * 3600) None =
    action_check_age all_ok report_stdout ten_hours_us start_at_zero str_other
      hooked_config (24 * 3600) None.
Proof.
  apply (actions_read_sections all_ok report_stdout ten_hours_us start_at_zero str_other
           test_config hooked_config true (24 * 3600) None).
  reflexivity.
Defined.
